(** * 3ds Max import/export add-on: the asset filter of [ImportMax]
      and the export selection of [ExportMax]

    A shallow embedding of [src/__init__.py].  The add-on is a sequence of
    calls into the host application (Blender's [bpy]), so the embedding is a
    state-and-exception monad over a model of the host: the scene's objects,
    their datablocks, the selection, the file system, the logger and the
    reports shown to the user.

    Layout: the host model; [ImportMax] (the filter functions, the filter
    itself, [execute]); the export selection of [ExportMax]; the closed
    form of the filter's outcome and concrete scenes; then the proofs: the
    loops, the stages of the filter, the filter as a whole
    ([filter_imported_run]), and the claims. *)

From Stdlib Require Import PrimFloat Ascii String.
From stdpp Require Import gmap strings list fin_maps fin_sets pretty.

Set Warnings "-inexact-float,-clear-no-such-hyp".
Local Open Scope string_scope.
Local Open Scope list_scope.

(* ===================================================================== *)
(** * The host model *)
(* ===================================================================== *)

Module Host.

(** [obj.rotation_euler] and [obj.scale]: three Python floats (binary64). *)
Definition Vec3 : Type := float * float * float.

(** A scene object ([bpy.types.Object]), the attributes the add-on reads or
    writes.  [obj_type] is [obj.type], a string such as ["MESH"];
    [obj_data] names the datablock [obj.data] refers to ([None] for an
    empty); [animation_data] is [None] when the object carries none. *)
Record Object := mkObject {
  obj_type : string;
  obj_data : option string;
  animation_data : option string;
  rotation_euler : Vec3;
  scale : Vec3;
  selected : bool;
}.

(** A datablock ([obj.data]); [materials] is [None] when the datablock has
    no [materials] attribute ([hasattr(obj.data, 'materials')] is false),
    as for a camera or a light.  Several objects may refer to one
    datablock, so datablocks live in a store of their own. *)
Record DataBlock := mkData { materials : option (list string) }.

Inductive Level := INFO | WARNING | ERROR.

(** The host calls that change object data or scene membership, in the
    order they were issued.  The history is not read by the add-on; it is
    kept so that ordering properties can be stated. *)
Inductive HostCall :=
  | CallSetRotationX (obj : string) (v : float)
  | CallSetScale (obj : string) (v : Vec3)
  | CallDelete (objs : list string)
  | CallAnimationDataClear (obj : string)
  | CallMaterialsClear (data : string).

(** The state the add-on runs against.  An object handle is identified
    with its name, which it keeps after its object is removed: [objects]
    is [bpy.context.scene.objects] keyed by [obj.name], and the source's
    existence test [obj.name in bpy.context.scene.objects] is a lookup in
    it.  Any other attribute of a removed object raises (see [get_obj],
    [update_obj]).  [view_layer] holds the names in
    [bpy.context.view_layer.objects], [files] the paths that exist,
    [log] what went to [logger], [reports] what [self.report] showed to
    the user. *)
Record World := mkWorld {
  objects : gmap string Object;
  datas : gmap string DataBlock;
  view_layer : gset string;
  active : option string;
  files : gset string;
  log : list (Level * string);
  reports : list (Level * string);
  calls : list HostCall;
}.

Definition set_selected (b : bool) (o : Object) : Object :=
  mkObject (obj_type o) (obj_data o) (animation_data o)
           (rotation_euler o) (scale o) b.

Definition set_rotation_x (v : float) (o : Object) : Object :=
  mkObject (obj_type o) (obj_data o) (animation_data o)
           (v, snd (fst (rotation_euler o)), snd (rotation_euler o))
           (scale o) (selected o).

Definition set_scale (v : Vec3) (o : Object) : Object :=
  mkObject (obj_type o) (obj_data o) (animation_data o)
           (rotation_euler o) v (selected o).

Definition clear_animation (o : Object) : Object :=
  mkObject (obj_type o) (obj_data o) None
           (rotation_euler o) (scale o) (selected o).

Definition clear_materials (d : DataBlock) : DataBlock := mkData (Some []).

Definition with_objects (f : gmap string Object → gmap string Object)
    (w : World) : World :=
  mkWorld (f (objects w)) (datas w) (view_layer w) (active w) (files w)
          (log w) (reports w) (calls w).

Definition with_datas (f : gmap string DataBlock → gmap string DataBlock)
    (w : World) : World :=
  mkWorld (objects w) (f (datas w)) (view_layer w) (active w) (files w)
          (log w) (reports w) (calls w).

Definition with_active (a : option string) (w : World) : World :=
  mkWorld (objects w) (datas w) (view_layer w) a (files w)
          (log w) (reports w) (calls w).

Definition with_files (f : gset string → gset string) (w : World) : World :=
  mkWorld (objects w) (datas w) (view_layer w) (active w) (f (files w))
          (log w) (reports w) (calls w).

Definition with_view_layer (f : gset string → gset string) (w : World)
    : World :=
  mkWorld (objects w) (datas w) (f (view_layer w)) (active w) (files w)
          (log w) (reports w) (calls w).

Definition with_log (e : Level * string) (w : World) : World :=
  mkWorld (objects w) (datas w) (view_layer w) (active w) (files w)
          (log w ++ [e]) (reports w) (calls w).

Definition with_report (e : Level * string) (w : World) : World :=
  mkWorld (objects w) (datas w) (view_layer w) (active w) (files w)
          (log w) (reports w ++ [e]) (calls w).

Definition with_call (c : HostCall) (w : World) : World :=
  mkWorld (objects w) (datas w) (view_layer w) (active w) (files w)
          (log w) (reports w) (calls w ++ [c]).

(** ** Exceptions and the monad *)

(** A Python exception; [exn_msg] is [str(e)]. *)
Inductive Exn :=
  | ReferenceError (msg : string)
  | OSError (msg : string)
  | RuntimeError (msg : string).

Definition exn_msg (e : Exn) : string :=
  match e with ReferenceError m | OSError m | RuntimeError m => m end.

Inductive Res (A : Type) :=
  | Ok (a : A)
  | Raise (e : Exn).
Arguments Ok {A} a.
Arguments Raise {A} e.

(** A computation runs on a world and leaves a world behind, also when it
    raises: what was written before the exception stays written. *)
Definition M (A : Type) : Type := World → Res A * World.

#[global] Instance M_ret : MRet M := λ A a w, (Ok a, w).
#[global] Instance M_bind : MBind M := λ A B k m w,
  match m w with
  | (Ok a, w') => k a w'
  | (Raise e, w') => (Raise e, w')
  end.

(** [try: body except Exception as e: handler]. *)
Definition try_except {A} (body : M A) (handler : Exn → M A) : M A := λ w,
  match body w with
  | (Ok a, w') => (Ok a, w')
  | (Raise e, w') => handler e w'
  end.

Fixpoint foldM {A B} (f : B → A → M B) (b : B) (l : list A) : M B :=
  match l with
  | [] => mret b
  | x :: l' => b' ← f b x; foldM f b' l'
  end.

(** [for x in l: f x]. *)
Fixpoint for_each {A} (l : list A) (f : A → M unit) : M unit :=
  match l with
  | [] => mret ()
  | x :: l' => f x;; for_each l' f
  end.

Definition when (b : bool) (m : M unit) : M unit :=
  if b then m else mret ().

(** ** Host calls

    [obj.select_set] and the [active] assignment are plain writes: whether
    the host accepts selecting an object outside the view layer is not
    modelled (the export loop tests for it before selecting, the import
    selects only what the importer has just linked). *)

Definition removed_msg : string :=
  "StructRNA of type Object has been removed".

(** [obj.name in bpy.context.scene.objects]. *)
Definition in_scene (obj : string) : M bool := λ w,
  (Ok (bool_decide (is_Some (objects w !! obj))), w).

(** Reading an attribute of a handle: the host raises [ReferenceError] on
    a handle whose object has been removed. *)
Definition get_obj (obj : string) : M Object := λ w,
  match objects w !! obj with
  | Some o => (Ok o, w)
  | None => (Raise (ReferenceError removed_msg), w)
  end.

(** Writing an attribute of a handle. *)
Definition update_obj (f : Object → Object) (obj : string) : M unit := λ w,
  match objects w !! obj with
  | Some o => (Ok (), with_objects (<[obj := f o]>) w)
  | None => (Raise (ReferenceError removed_msg), w)
  end.

Definition record (c : HostCall) : M unit := λ w, (Ok (), with_call c w).

(** [obj.select_set(b)]. *)
Definition select_set (obj : string) (b : bool) : M unit :=
  update_obj (set_selected b) obj.

(** [bpy.ops.object.select_all(action='DESELECT')]. *)
Definition select_all_deselect : M unit := λ w,
  (Ok (), with_objects (fmap (set_selected false)) w).

(** [bpy.context.selected_objects]. *)
Definition selected_objects (w : World) : gset string :=
  dom (filter (λ kv, selected kv.2 = true) (objects w)).

(** [bpy.context.view_layer.objects.active = obj]. *)
Definition set_active (obj : string) : M unit := λ w,
  (Ok (), with_active (Some obj) w).

(** [bpy.ops.object.delete()]: removes the selected objects from the
    scene, and so from the view layer; an active object that is removed
    stops being active. *)
Definition object_delete : M unit := λ w,
  let doomed := selected_objects w in
  let keep_active :=
    match active w with
    | Some a => if bool_decide (a ∈ doomed) then None else Some a
    | None => None
    end in
  (Ok (),
   with_call (CallDelete (elements doomed))
     (with_active keep_active
        (with_view_layer (λ vl, vl ∖ doomed)
           (with_objects (filter (λ kv, selected kv.2 = false)) w)))).

(** [obj.rotation_euler.x = v]. *)
Definition set_rotation_euler_x (obj : string) (v : float) : M unit :=
  update_obj (set_rotation_x v) obj;; record (CallSetRotationX obj v).

(** [obj.scale = v]. *)
Definition assign_scale (obj : string) (v : Vec3) : M unit :=
  update_obj (set_scale v) obj;; record (CallSetScale obj v).

(** [obj.animation_data_clear()]. *)
Definition animation_data_clear (obj : string) : M unit :=
  update_obj clear_animation obj;; record (CallAnimationDataClear obj).


(** [obj.data], with the name of the datablock it refers to. *)
Definition get_data (o : Object) : M (option (string * DataBlock)) := λ w,
  (Ok (d ← obj_data o; b ← datas w !! d; Some (d, b)), w).

(** [obj.data.materials.clear()], on the datablock named [d]. *)
Definition materials_clear (d : string) : M unit := λ w,
  (Ok (), with_call (CallMaterialsClear d)
            (with_datas (alter clear_materials d) w)).

Definition logger (lvl : Level) (msg : string) : M unit := λ w,
  (Ok (), with_log (lvl, msg) w).

(** [self.report({lvl}, msg)]. *)
Definition report (lvl : Level) (msg : string) : M unit := λ w,
  (Ok (), with_report (lvl, msg) w).

(** ** Files *)

(** [os.path.exists(p)]. *)
Definition os_path_exists (p : string) : M bool := λ w,
  (Ok (bool_decide (p ∈ files w)), w).

(** [with open(p, 'w') as f: f.write(...)]; what is written is not
    modelled, and the write is taken to succeed. *)
Definition write_file (p : string) : M unit := λ w,
  (Ok (), with_files (λ fs, {[p]} ∪ fs) w).

(** [os.remove(p)]. *)
Definition os_remove (p : string) : M unit := λ w,
  if bool_decide (p ∈ files w) then (Ok (), with_files (λ fs, fs ∖ {[p]}) w)
  else (Raise (OSError "The system cannot find the file specified"), w).

(** [os.path.join(a, b)] for a relative [b], with the separator of the
    platform the add-on targets. *)
Definition os_path_join (a b : string) : string := a +:+ "\" +:+ b.

(** [os.path.basename(p)]: what follows the last separator. *)
Fixpoint os_path_basename (p : string) : string :=
  match p with
  | EmptyString => EmptyString
  | String c p' =>
      if bool_decide (c = "/"%char ∨ c = "\"%char) then os_path_basename p'
      else if bool_decide (Exists (λ c, c = "/"%char ∨ c = "\"%char)
                             (list_ascii_of_string p'))
           then os_path_basename p'
           else p
  end.

(** The root part of [os.path.splitext(name)] for a name without
    separators: the extension starts at the last dot, unless that dot
    only follows other dots at the start of the name. *)
Fixpoint drop_ext (leading : bool) (name : string) : string :=
  match name with
  | EmptyString => EmptyString
  | String c name' =>
      let dot := bool_decide (c = "."%char) in
      if dot && negb leading
         && negb (bool_decide (Exists (λ c, c = "."%char)
                                 (list_ascii_of_string name')))
      then EmptyString
      else String c (drop_ext (leading && dot) name')
  end.

(** A line feed, [\n] in the source's strings. *)
Definition nl : string := String (ascii_of_nat 10) EmptyString.

(** [s.lower()], on the ASCII letters. *)
Definition lower_char (c : ascii) : ascii :=
  let n := nat_of_ascii c in
  if bool_decide (65 ≤ n ≤ 90)%nat then ascii_of_nat (n + 32) else c.
Fixpoint lower (s : string) : string :=
  match s with
  | EmptyString => EmptyString
  | String c s' => String (lower_char c) (lower s')
  end.

(** [s.endswith(suffix)]. *)
Definition endswith (s suffix : string) : bool :=
  let n := String.length s in
  let k := String.length suffix in
  bool_decide (k ≤ n)%nat && bool_decide (substring (n - k) k s = suffix).


End Host.
Export Host.

(* ===================================================================== *)
(** * [class ImportMax]: the asset filter *)
(* ===================================================================== *)

(** The operator's properties. *)
Record ImportMax := mkImportMax {
  filepath : string;
  import_models : bool;
  import_lights : bool;
  import_cameras : bool;
  import_splines : bool;
  import_animations : bool;
  import_materials : bool;
  import_armatures : bool;
  apply_rotation : bool;
  apply_scale : bool;
}.

(** A Python set is truthy when it is not empty. *)
Definition truthy (X : gset string) : bool := bool_decide (X ≠ ∅).

Definition msg_deleting (n : nat) (obj_type : string) : string :=
  "Filtering: Deleting " +:+ pretty n +:+ " objects of type " +:+ obj_type
  +:+ ".".
Definition msg_keeping (n : nat) (obj_type : string) : string :=
  "Filtering: Keeping " +:+ pretty n +:+ " objects of type " +:+ obj_type
  +:+ ".".
Definition msg_rotation : string := "Applied X-axis 180 degree rotation.".
Definition msg_scale : string := "Applied 0.01 scale (shrunk by 100x).".
Definition msg_armatures_kept : string :=
  "Models are off, but animations are on. Armatures will be kept if present.".
Definition msg_cleared_animation (n : nat) : string :=
  "Filtering: Cleared animation data from " +:+ pretty n +:+ " objects.".
Definition msg_cleared_materials (n : nat) : string :=
  "Filtering: Cleared material slots from " +:+ pretty n +:+ " objects.".

(** [ImportMax._filter_objects_by_type]. *)
Definition _filter_objects_by_type (objects_to_check : gset string)
    (obj_type : string) (keep : bool) : M (gset string) :=
  select_all_deselect;;
  targeted_objects ←
    foldM (λ targeted obj,
             present ← in_scene obj;
             if present : bool then
               o ← get_obj obj;
               if bool_decide (Host.obj_type o = obj_type) then
                 select_set obj true;;
                 mret ({[obj]} ∪ targeted)
               else mret targeted
             else mret targeted)
          (∅ : gset string) (elements objects_to_check);
  if negb keep && truthy targeted_objects then
    logger INFO (msg_deleting (size targeted_objects) obj_type);;
    object_delete;;
    mret targeted_objects
  else
    when (keep && truthy targeted_objects)
      (logger INFO (msg_keeping (size targeted_objects) obj_type));;
    select_all_deselect;;
    mret (if negb keep then targeted_objects else ∅).

(** [ImportMax._filter_animations_from_objects]. *)
Definition _filter_animations_from_objects (objects_to_check : gset string)
    (keep : bool) : M unit :=
  when (negb keep)
    (cleared_count ←
       foldM (λ cleared_count obj,
                present ← in_scene obj;
                if present : bool then
                  o ← get_obj obj;
                  if bool_decide (is_Some (animation_data o)) then
                    animation_data_clear obj;;
                    mret (S cleared_count)
                  else mret cleared_count
                else mret cleared_count)
             0 (elements objects_to_check);
     when (bool_decide (0 < cleared_count)%nat)
       (logger INFO (msg_cleared_animation cleared_count))).

(** [ImportMax._filter_materials_from_objects]. *)
Definition _filter_materials_from_objects (objects_to_check : gset string)
    (keep : bool) : M unit :=
  when (negb keep)
    (cleared_count ←
       foldM (λ cleared_count obj,
                present ← in_scene obj;
                if present : bool then
                  o ← get_obj obj;
                  data ← get_data o;
                  match data with
                  | Some (d, mkData (Some (_ :: _))) =>
                      materials_clear d;;
                      mret (S cleared_count)
                  | _ => mret cleared_count
                  end
                else mret cleared_count)
             0 (elements objects_to_check);
     when (bool_decide (0 < cleared_count)%nat)
       (logger INFO (msg_cleared_materials cleared_count))).

(** [processed_for_deletion.update(...)] under [if c:]. *)
Definition update_if (c : bool) (processed : gset string)
    (m : M (gset string)) : M (gset string) :=
  if c then r ← m; mret (processed ∪ r) else mret processed.

(** The 180 degree rotation and the 0.01 scale, as the source writes
    them. *)
Definition rotation_180 : float := 3.14159%float.
Definition scale_001 : Vec3 := (0.01, 0.01, 0.01)%float.

(** Lines 722-767 of [ImportMax.execute]: what is done to the freshly
    imported objects.  The source has no name for it; it returns the two
    sets the source computes, [processed_for_deletion] and
    [remaining_after_deletion] (both empty when nothing was imported).
    A Python set of handles is a [gset] of names, and a loop over it goes
    through [elements]. *)
Definition filter_imported (self : ImportMax) (imported_objects : gset string)
    : M (gset string * gset string) :=
  r ← (if truthy imported_objects then
         select_all_deselect;;
         foldM (λ active_set obj,
                  select_set obj true;;
                  if negb active_set then set_active obj;; mret true
                  else mret active_set)
               false (elements imported_objects);;
         when (apply_rotation self)
           (for_each (elements imported_objects)
              (λ obj, set_rotation_euler_x obj rotation_180);;
            logger INFO msg_rotation);;
         when (apply_scale self)
           (for_each (elements imported_objects)
              (λ obj, assign_scale obj scale_001);;
            logger INFO msg_scale);;
         select_all_deselect;;
         let processed_for_deletion : gset string := ∅ in
         processed_for_deletion ←
           update_if (negb (import_models self)) processed_for_deletion
             (_filter_objects_by_type imported_objects "MESH" false);
         processed_for_deletion ←
           update_if (negb (import_lights self)) processed_for_deletion
             (_filter_objects_by_type imported_objects "LIGHT" false);
         processed_for_deletion ←
           update_if (negb (import_cameras self)) processed_for_deletion
             (_filter_objects_by_type imported_objects "CAMERA" false);
         processed_for_deletion ←
           update_if (negb (import_splines self)) processed_for_deletion
             (_filter_objects_by_type imported_objects "CURVE" false);
         processed_for_deletion ←
           (if negb (import_armatures self) then
              update_if true processed_for_deletion
                (_filter_objects_by_type imported_objects "ARMATURE" false)
            else
              when (negb (import_models self) && import_animations self)
                (logger INFO msg_armatures_kept);;
              mret processed_for_deletion);
         let remaining_after_deletion :=
           imported_objects ∖ processed_for_deletion in
         when (negb (import_animations self)
               && truthy remaining_after_deletion)
           (_filter_animations_from_objects remaining_after_deletion false);;
         when (negb (import_materials self)
               && truthy remaining_after_deletion)
           (_filter_materials_from_objects remaining_after_deletion false);;
         mret (processed_for_deletion, remaining_after_deletion)
       else mret (∅, ∅));
  select_all_deselect;;
  mret r.

(** [{obj for obj in bpy.context.scene.objects
         if obj.name not in existing_object_names}]. *)
Definition imported_since (existing_object_names : gset string) (w : World)
    : gset string :=
  dom (objects w) ∖ existing_object_names.


(* ===================================================================== *)
(** * [ImportMax.execute] *)
(* ===================================================================== *)

(** What lies outside the add-on: the user's home directory, the add-on
    preference, and the outcomes of the two external steps of one import,
    the 3ds Max process and the host's FBX importer. *)
Record Env := mkEnv {
  home : string;
  max_python_path : string;
  (** [subprocess.run]: raises, or completes with a return code and the
      stripped standard output and error. *)
  run_result : Exn + (Z * string * string);
  (** the files the external process leaves behind *)
  run_writes : gset string;
  (** [bpy.ops.import_scene.fbx]: raises, or adds objects and
      datablocks to the scene *)
  fbx_result : Exn + (gmap string Object * gmap string DataBlock);
}.

Inductive Status := FINISHED | CANCELLED.

Definition cache_dir (env : Env) : string :=
  os_path_join (os_path_join (home env) "Documents") "blender_3dsmax_cache".
Definition log_file (env : Env) : string :=
  os_path_join (os_path_join (home env) "Documents") "blender_3dsmax_log.txt".

(** The two files an import writes under [cache_dir]: the script handed to
    3ds Max and the FBX file it is asked to produce. *)
Definition temp_script_path_of (env : Env) : string :=
  os_path_join (cache_dir env) "temp_max_to_fbx_for_blender_import.py".
Definition fbx_file_path_of (env : Env) (self : ImportMax) : string :=
  let base_name_ext := os_path_basename (filepath self) in
  let base_name := drop_ext true base_name_ext in
  let fbx_file_name := "blender_max_import_" +:+ base_name +:+ ".fbx" in
  os_path_join (cache_dir env) fbx_file_name.

Definition subprocess_run (env : Env) : M (Z * string * string) := λ w,
  match run_result env with
  | inl e => (Raise e, w)
  | inr r => (Ok r, with_files (λ fs, fs ∪ run_writes env) w)
  end.

(** The importer gives fresh names: an object already in the scene is
    never replaced. *)
Definition import_scene_fbx (env : Env) : M unit := λ w,
  match fbx_result env with
  | inl e => (Raise e, w)
  | inr (objs, dts) =>
      (Ok (), with_view_layer (λ vl, vl ∪ dom objs)
                (with_datas (λ ds, ds ∪ dts)
                   (with_objects (λ os, os ∪ objs) w)))
  end.

Definition scene_object_names : M (gset string) := λ w,
  (Ok (dom (objects w)), w).

Definition get_imported (existing_object_names : gset string)
    : M (gset string) := λ w,
  (Ok (imported_since existing_object_names w), w).

(** [ImportMax.execute].  The environment variables handed to the external
    process and the text of the generated script are not modelled, nor is
    the traceback appended to two of the log messages. *)
Definition execute (env : Env) (self : ImportMax) : M Status :=
  let max_file_path := filepath self in
  logger INFO ("Initiating 3ds Max import for: " +:+ max_file_path);;
  if bool_decide (max_file_path = EmptyString)
     || negb (endswith (lower max_file_path) ".max")
  then
    report ERROR "Invalid file path or extension. Must be .max";;
    mret CANCELLED
  else
  python_exists ← os_path_exists (max_python_path env);
  if bool_decide (max_python_path env = EmptyString) || negb python_exists
  then
    logger ERROR ("3ds Max Python executable not found: "
                  +:+ max_python_path env +:+ ". Check Addon Preferences.");;
    report ERROR "3ds Max Python executable not found. Check Addon Preferences.";;
    mret CANCELLED
  else
  let fbx_file_path := fbx_file_path_of env self in
  let temp_script_path := temp_script_path_of env in
  write_file temp_script_path;;
  logger INFO ("Executing 3ds Max to FBX conversion script: "
               +:+ temp_script_path);;
  early ←
    try_except
      ('(returncode, s_out, s_err) ← subprocess_run env;
       when (negb (bool_decide (s_out = EmptyString)))
         (logger INFO ("3ds Max->FBX Script STDOUT:" +:+ nl +:+ s_out));;
       when (negb (bool_decide (s_err = EmptyString)))
         (logger ERROR ("3ds Max->FBX Script STDERR:" +:+ nl +:+ s_err));;
       if bool_decide (returncode ≠ 0%Z) then
         logger ERROR ("3ds Max to FBX script failed. RC: "
                       +:+ pretty returncode);;
         report ERROR ("3ds Max conversion failed (RC: "
                       +:+ pretty returncode +:+ "). See log: "
                       +:+ log_file env);;
         mret (Some CANCELLED)
       else mret None)
      (λ e,
         logger ERROR ("Failed to execute 3ds Max script: " +:+ exn_msg e);;
         report ERROR ("Failed to execute 3ds Max script: " +:+ exn_msg e
                       +:+ ". See log: " +:+ log_file env);;
         mret (Some CANCELLED));
  match early with
  | Some status => mret status
  | None =>
  fbx_exists ← os_path_exists fbx_file_path;
  if negb fbx_exists then
    report ERROR ("FBX conversion failed: " +:+ fbx_file_path
                  +:+ " not found");;
    mret CANCELLED
  else
  try_except
    (logger INFO ("Importing generated FBX into Blender: "
                  +:+ fbx_file_path);;
     select_all_deselect;;
     existing_object_names ← scene_object_names;
     import_scene_fbx env;;
     logger INFO "FBX imported into Blender.";;
     imported_objects ← get_imported existing_object_names;
     logger INFO ("Identified " +:+ pretty (size imported_objects)
                  +:+ " newly imported Blender objects.");;
     filter_imported self imported_objects;;
     try_except (os_remove fbx_file_path) (λ _, mret ());;
     report INFO ("Successfully imported 3ds Max file: "
                  +:+ os_path_basename max_file_path);;
     mret FINISHED)
    (λ e,
       logger ERROR ("FBX import to Blender failed: " +:+ exn_msg e);;
       report ERROR ("FBX import failed: " +:+ exn_msg e +:+ ". See log: "
                     +:+ log_file env);;
       mret CANCELLED)
  end.


(* ===================================================================== *)
(** * [ExportMax.export_max]: choosing what is exported *)
(* ===================================================================== *)

Record ExportMax := mkExportMax {
  export_models : bool;
  export_lights : bool;
  export_cameras : bool;
  export_splines : bool;
  export_animations : bool;
  use_selection : bool;
}.

(** [obj.name in bpy.context.view_layer.objects]. *)
Definition in_view_layer (obj : string) : M bool := λ w,
  (Ok (bool_decide (obj ∈ view_layer w)), w).

Definition get_selected_objects : M (gset string) := λ w,
  (Ok (selected_objects w), w).

Definition get_active : M (option string) := λ w, (Ok (active w), w).

(** The [if]/[elif] chain that sets [should_select]. *)
Definition should_select (self : ExportMax) (obj_type : string) : bool :=
  if bool_decide (obj_type = "MESH") && export_models self then true
  else if bool_decide (obj_type = "LIGHT") && export_lights self then true
  else if bool_decide (obj_type = "CAMERA") && export_cameras self then true
  else if bool_decide (obj_type = "CURVE") && export_splines self then true
  else if bool_decide (obj_type = "ARMATURE")
          && (export_models self || export_animations self) then true
  else false.

(** [source_objects], lines 355-358 of [export_max]: with [use_selection]
    the source reads [bpy.context.selected_objects] again, after
    everything was deselected. *)
Definition source_objects (self : ExportMax)
    (original_selection : gset string) : M (gset string) :=
  if use_selection self then
    if truthy original_selection then get_selected_objects else mret ∅
  else scene_object_names.

(** Lines 348-375 of [ExportMax.export_max]: the objects to export are
    left selected, and [bpy.ops.export_scene.fbx] is then called with
    [use_selection=True].  Returns [original_selection],
    [original_active] and [export_objects_count]. *)
Definition select_for_export (self : ExportMax)
    : M (gset string * option string * nat) :=
  original_selection ← get_selected_objects;
  original_active ← get_active;
  select_all_deselect;;
  source ← source_objects self original_selection;
  export_objects_count ←
    foldM (λ count obj,
             in_layer ← in_view_layer obj;
             if negb in_layer then mret count
             else
               select_set obj false;;
               o ← get_obj obj;
               if should_select self (obj_type o) then
                 select_set obj true;;
                 mret (S count)
               else mret count)
          0 (elements source);
  mret (original_selection, original_active, export_objects_count).


(* ===================================================================== *)
(** * Reasoning about runs *)
(* ===================================================================== *)

(** [step w w' os ds l t]: a run from [w] to [w'] left the objects [os] and
    the datablocks [ds], appended [l] to the log and [t] to the history of
    host calls, added nothing to the view layer and touched neither files
    nor reports.  The active object is not tracked. *)
Record step (w w' : World) (os : gmap string Object)
    (ds : gmap string DataBlock) (l : list (Level * string))
    (t : list HostCall) : Prop := mkStep {
  step_objects : objects w' = os;
  step_datas : datas w' = ds;
  step_view_layer : view_layer w' ⊆ view_layer w;
  step_files : files w' = files w;
  step_reports : reports w' = reports w;
  step_log : log w' = log w ++ l;
  step_calls : calls w' = calls w ++ t;
}.

(** [h] applied to the objects named in [S]. *)
Definition on_set (S : gset string) (h : Object → Object)
    (m : gmap string Object) : gmap string Object :=
  map_imap (λ n o, Some (if bool_decide (n ∈ S) then h o else o)) m.

(** The names in [S] of the objects of type [ty] present in [m]. *)
Definition by_type (S : gset string) (ty : string) (m : gmap string Object)
    : gset string :=
  filter (λ n, obj_type <$> m !! n = Some ty) S.

(** What a run of [_filter_objects_by_type] that targets [T] leaves of the
    scene: the targets are gone, everything else is deselected. *)
Definition delete_stage (T : gset string) (m : gmap string Object)
    : gmap string Object :=
  map_imap (λ n o, if bool_decide (n ∈ T) then None
                   else Some (set_selected false o)) m.

(** What [_filter_materials_from_objects] does to one datablock. *)
Definition strip_materials (b : DataBlock) : DataBlock :=
  match materials b with
  | Some (_ :: _) => mkData (Some [])
  | _ => b
  end.

(** [strip_materials] applied to the datablocks named in [D]. *)
Definition on_data (D : gset string) (ds : gmap string DataBlock)
    : gmap string DataBlock :=
  map_imap (λ d b, Some (if bool_decide (d ∈ D) then strip_materials b
                         else b)) ds.

(** The datablocks the objects named in [l] refer to. *)
Definition data_names_of (m : gmap string Object) (l : list string)
    : gset string :=
  list_to_set (omap (λ n, m !! n ≫= obj_data) l).
Definition data_names (S : gset string) (m : gmap string Object)
    : gset string :=
  data_names_of m (elements S).

(** The calls that remove objects or strip data, as opposed to the two
    that write a transform. *)
Definition is_removal (c : HostCall) : Prop :=
  match c with
  | CallSetRotationX _ _ | CallSetScale _ _ => False
  | _ => True
  end.

(** ** The outcome of the asset filter, in closed form *)

(** Whether the configuration deletes imported objects of type [ty]. *)
Definition deletes (self : ImportMax) (ty : string) : bool :=
  negb (import_models self) && bool_decide (ty = "MESH")
  || negb (import_lights self) && bool_decide (ty = "LIGHT")
  || negb (import_cameras self) && bool_decide (ty = "CAMERA")
  || negb (import_splines self) && bool_decide (ty = "CURVE")
  || negb (import_armatures self) && bool_decide (ty = "ARMATURE").

(** The corrective transform the configuration asks for. *)
Definition transformed (self : ImportMax) (o : Object) : Object :=
  let o1 := if apply_rotation self then set_rotation_x rotation_180 o
            else o in
  if apply_scale self then set_scale scale_001 o1 else o1.

Definition stripped (self : ImportMax) (o : Object) : Object :=
  if import_animations self then o else clear_animation o.

(** What becomes of an object of the scene, imported or not. *)
Definition final_object (self : ImportMax) (in_batch : bool) (o : Object)
    : option Object :=
  if in_batch then
    if deletes self (obj_type o) then None
    else Some (set_selected false (stripped self (transformed self o)))
  else Some (set_selected false o).

Definition final_objects (self : ImportMax) (B : gset string)
    (m : gmap string Object) : gmap string Object :=
  map_imap (λ n o, final_object self (bool_decide (n ∈ B)) o) m.

(** The names in [B] of the objects whose type [del] marks. *)
Definition removed_by (del : string → bool) (B : gset string)
    (m : gmap string Object) : gset string :=
  filter (λ n, del <$> (obj_type <$> m !! n) = Some true) B.

Definition removed_set (self : ImportMax) (B : gset string)
    (m : gmap string Object) : gset string :=
  removed_by (deletes self) B m.

Definition final_datas (self : ImportMax) (S : gset string)
    (m : gmap string Object) (ds : gmap string DataBlock)
    : gmap string DataBlock :=
  if import_materials self then ds else on_data (data_names S m) ds.

(** The transform writes the configuration asks for, in the order the
    source issues them. *)
Definition transform_calls (self : ImportMax) (B : gset string)
    : list HostCall :=
  (if apply_rotation self
   then (λ n, CallSetRotationX n rotation_180) <$> elements B else [])
  ++ (if apply_scale self
      then (λ n, CallSetScale n scale_001) <$> elements B else []).

(** The objects of the scene part-way through the filter: the imported
    objects of the types marked by [del] are gone, the other imported
    objects went through [g], everything else is deselected. *)
Definition shape (B : gset string) (del : string → bool)
    (g : Object → Object) (m : gmap string Object) : gmap string Object :=
  map_imap (λ n o, if bool_decide (n ∈ B)
                   then if del (obj_type o) then None else Some (g o)
                   else Some (set_selected false o)) m.

(** [g] leaves the type and the datablock of an object alone and leaves
    the object deselected. *)
Definition settled (g : Object → Object) : Prop :=
  ∀ o, obj_type (g o) = obj_type o ∧ obj_data (g o) = obj_data o
       ∧ set_selected false (g o) = g o.


(** All seven retention flags are set. *)
Definition retains_all (self : ImportMax) : bool :=
  import_models self && import_lights self && import_cameras self
  && import_splines self && import_animations self
  && import_materials self && import_armatures self.

(** The [source_objects] of an export from [w], as lines 348-358
    compute them. *)
Definition export_source (self : ExportMax) (w : World) : gset string :=
  match (original_selection ← get_selected_objects;
         select_all_deselect;;
         source_objects self original_selection) w with
  | (Ok source, _) => source
  | (Raise _, _) => ∅
  end.

(** What the export loop does to an object it reaches. *)
Definition export_mark (self : ExportMax) (o : Object) : Object :=
  set_selected (should_select self (obj_type o)) o.

(** An imported object after the corrective transform, and at the end. *)
Definition g_xform (self : ImportMax) (o : Object) : Object :=
  set_selected false (transformed self o).
Definition g_final (self : ImportMax) (o : Object) : Object :=
  set_selected false (stripped self (transformed self o)).

(* ===================================================================== *)
(** * [ExportMax]: the whole export *)
(* ===================================================================== *)

(** What lies outside the add-on during an export, besides what an import
    needs ([export_base]; its [fbx_result] is not used): the directory
    [tempfile.TemporaryDirectory] creates, [os.path.normpath], and the
    outcome of the host's FBX exporter, which raises, or returns having
    written nothing ([None]) or a file of so many bytes. *)
Record ExportEnv := mkExportEnv {
  export_base : Env;
  temp_dir : string;
  normpath : string → string;
  fbx_export : Exn + option nat;
}.

Definition raise {A} (e : Exn) : M A := λ w, (Raise e, w).

(** [p] lies in the directory [dir]. *)
Definition under_dir (dir p : string) : bool :=
  String.prefix (dir +:+ "\") p.

(** [with tempfile.TemporaryDirectory(...) as temp_dir: body], for the
    directory [dir]: however the body is left, by a [return] or by an
    exception, the directory goes with all that is in it. *)
Definition temporary_directory {A} (dir : string) (body : M A) : M A := λ w,
  let '(r, w') := body w in
  (r, with_files (filter (λ p, under_dir dir p = false)) w').

(** [bpy.ops.export_scene.fbx(filepath=fbx_path, use_selection=True, ...)]. *)
Definition export_scene_fbx (xenv : ExportEnv) (fbx_path : string)
    : M unit := λ w,
  match fbx_export xenv with
  | inl e => (Raise e, w)
  | inr None => (Ok (), w)
  | inr (Some _) => (Ok (), with_files (λ fs, {[fbx_path]} ∪ fs) w)
  end.

(** [os.path.getsize(fbx_path)], of the file the exporter wrote. *)
Definition fbx_size (xenv : ExportEnv) : nat :=
  match fbx_export xenv with
  | inr (Some n) => n
  | _ => 0
  end.

(** Lines 381-386 and 425-430 of [export_max]: the selection found at the
    start is put back. *)
Definition restore_selection (original_selection : gset string)
    (original_active : option string) : M unit :=
  select_all_deselect;;
  match original_active with
  | Some a => in_layer ← in_view_layer a; when in_layer (set_active a)
  | None => mret ()
  end;;
  for_each (elements original_selection)
    (λ obj_ref,
       in_layer ← in_view_layer obj_ref;
       when in_layer (select_set obj_ref true)).

Definition msg_no_match : string :=
  "No objects match export filters. Nothing exported to FBX.".
Definition msg_export_python : string :=
  "3ds Max Python executable path not set or invalid. Check Addon Preferences.".

(** [ExportMax.export_max].  As for the import, the environment handed to
    the external process, the text of the generated script and the text
    of the tracebacks are not modelled.  The [Exception] raised at line
    433 is carried by [RuntimeError]: the handler at line 436 catches
    every exception alike. *)
Definition export_max (xenv : ExportEnv) (self : ExportMax)
    (filepath : string) : M Status :=
  let env := export_base xenv in
  python_exists ← os_path_exists (max_python_path env);
  if bool_decide (max_python_path env = EmptyString) || negb python_exists
  then
    logger ERROR ("3ds Max Python executable not found at: "
                  +:+ max_python_path env
                  +:+ ". Please set it in Addon Preferences.");;
    report ERROR msg_export_python;;
    mret CANCELLED
  else
  early ←
    temporary_directory (temp_dir xenv)
      (let fbx_path := os_path_join (temp_dir xenv) "temp_export.fbx" in
       logger INFO ("Intermediate FBX will be exported to: " +:+ fbx_path);;
       early ←
         try_except
           ('(original_selection, original_active, export_objects_count)
              ← select_for_export self;
            if bool_decide (export_objects_count = 0) then
              report WARNING msg_no_match;;
              logger WARNING
                "No objects matched export filters for FBX export.";;
              restore_selection original_selection original_active;;
              mret (Some CANCELLED)
            else
              logger INFO ("Exporting " +:+ pretty export_objects_count
                           +:+ " objects to FBX based on filters.");;
              export_scene_fbx xenv fbx_path;;
              restore_selection original_selection original_active;;
              fbx_exists ← os_path_exists fbx_path;
              if negb fbx_exists || bool_decide (fbx_size xenv = 0) then
                raise (RuntimeError
                         "FBX export failed or resulted in empty file")
              else
                logger INFO "FBX export from Blender completed.";;
                mret None)
           (λ e,
              logger ERROR ("FBX export from Blender failed: "
                            +:+ exn_msg e);;
              logger ERROR "Traceback: ";;
              report ERROR ("FBX export from Blender failed. See log: "
                            +:+ log_file env);;
              mret (Some CANCELLED));
       match early with
       | Some status => mret (Some status)
       | None =>
           let max_script_path :=
             os_path_join (temp_dir xenv)
               "blender_to_max_export_script.py" in
           write_file max_script_path;;
           logger INFO ("Running 3ds Max script for final export: "
                        +:+ max_script_path);;
           try_except
             ('(returncode, stdout_msg, stderr_msg) ← subprocess_run env;
              when (negb (bool_decide (stdout_msg = EmptyString)))
                (logger INFO ("3ds Max Export Script STDOUT:" +:+ nl
                              +:+ stdout_msg));;
              when (negb (bool_decide (stderr_msg = EmptyString)))
                (logger ERROR ("3ds Max Export Script STDERR:" +:+ nl
                               +:+ stderr_msg));;
              if bool_decide (returncode ≠ 0%Z) then
                logger ERROR ("Running 3ds Max export script failed. RC: "
                              +:+ pretty returncode);;
                report ERROR ("3ds Max script execution failed (RC: "
                              +:+ pretty returncode +:+ "). See log: "
                              +:+ log_file env);;
                mret (Some CANCELLED)
              else mret None)
             (λ e,
                logger ERROR ("Error running 3ds Max export script: "
                              +:+ exn_msg e);;
                logger ERROR "Traceback: ";;
                report ERROR ("Failed to run 3ds Max script. See log: "
                              +:+ log_file env);;
                mret (Some CANCELLED))
       end);
  match early with
  | Some status => mret status
  | None =>
      logger INFO ("Export to 3ds Max file completed: " +:+ filepath);;
      report INFO ("Exported successfully to: " +:+ filepath);;
      mret FINISHED
  end.

(** The root part of [os.path.splitext(p)]: the directory part of [p]
    stays, the extension of its last component goes. *)
Definition os_path_splitext_root (p : string) : string :=
  let name := os_path_basename p in
  substring 0 (String.length p - String.length name) p
  +:+ drop_ext true name.

(** Lines 317-322 of [ExportMax.execute]. *)
Definition ensure_max_extension (filepath : string) : string :=
  if negb (endswith (lower filepath) ".max") then
    let base_path := os_path_splitext_root filepath in
    base_path +:+ ".max"
  else filepath.

(** Lines 326-328 of [ExportMax.execute]; [final_filepath[:-4]] is the
    path without its last four characters. *)
Definition strip_double_extension (final_filepath : string) : string :=
  if endswith (lower final_filepath) ".max.max" then
    let base_path :=
      substring 0 (String.length final_filepath - 4) final_filepath in
    base_path +:+ ".max"
  else final_filepath.

(** [ExportMax.execute]; [filepath] is [self.filepath]. *)
Definition export_execute (xenv : ExportEnv) (self : ExportMax)
    (filepath : string) : M Status :=
  if bool_decide (filepath = EmptyString) then
    report ERROR "No filepath specified";;
    mret CANCELLED
  else
    let final_filepath := ensure_max_extension filepath in
    let final_filepath := normpath xenv final_filepath in
    let final_filepath := strip_double_extension final_filepath in
    logger INFO ("Initiating 3ds Max export operation. Output: "
                 +:+ final_filepath);;
    export_max xenv self final_filepath.

(* ===================================================================== *)
(** * The helpers of [ImportMax] the import does not call *)
(* ===================================================================== *)



(* ===================================================================== *)
(** * [register] and [unregister] *)
(* ===================================================================== *)

(** What the add-on registers with the host: classes, by name, and draw
    functions appended to the two file menus. *)
Record Registry := mkRegistry {
  classes : gset string;
  file_export_menu : list string;
  file_import_menu : list string;
  addon_log : list (Level * string);
}.

Inductive RegistryError :=
  | AlreadyRegistered (cls : string)
  | NotRegistered (cls : string).

(** A run of [register] or [unregister] ends with a registry, or stops
    at the first refusal with what it had done until then. *)
Definition RegResult : Type := (RegistryError * Registry) + Registry.

(** [bpy.utils.register_class(cls)]: refused for a class that is
    registered already. *)
Definition register_class (cls : string) (r : Registry) : RegResult :=
  if bool_decide (cls ∈ classes r) then inl (AlreadyRegistered cls, r)
  else inr (mkRegistry ({[cls]} ∪ classes r) (file_export_menu r)
              (file_import_menu r) (addon_log r)).

(** [bpy.utils.unregister_class(cls)]: refused for a class that is not
    registered. *)
Definition unregister_class (cls : string) (r : Registry) : RegResult :=
  if bool_decide (cls ∈ classes r)
  then inr (mkRegistry (classes r ∖ {[cls]}) (file_export_menu r)
              (file_import_menu r) (addon_log r))
  else inl (NotRegistered cls, r).

(** [menu.remove(f)]: the first [f] of the menu's draw functions goes;
    nothing happens when there is none. *)
Fixpoint menu_remove (f : string) (menu : list string) : list string :=
  match menu with
  | [] => []
  | g :: menu' =>
      if bool_decide (g = f) then menu' else g :: menu_remove f menu'
  end.

Definition and_then (m : RegResult) (k : Registry → RegResult)
    : RegResult :=
  match m with
  | inl e => inl e
  | inr r => k r
  end.

(** The seven classes, in the order [register] goes through them. *)
Definition addon_classes : list string :=
  ["PREFERENCES_OT_detect_max_python"; "MaxPreferences"; "ExportMax";
   "ImportMax"; "InvokeExportMax"; "InvokeImportMax";
   "ImportMaxFileHandler"].

(** [register]. *)
Definition register (r : Registry) : RegResult :=
  and_then (register_class "PREFERENCES_OT_detect_max_python" r) (λ r,
  and_then (register_class "MaxPreferences" r) (λ r,
  and_then (register_class "ExportMax" r) (λ r,
  and_then (register_class "ImportMax" r) (λ r,
  and_then (register_class "InvokeExportMax" r) (λ r,
  and_then (register_class "InvokeImportMax" r) (λ r,
  and_then (register_class "ImportMaxFileHandler" r) (λ r,
  inr (mkRegistry (classes r)
         (file_export_menu r ++ ["menu_func_export"])
         (file_import_menu r ++ ["menu_func_import"])
         (addon_log r
          ++ [(INFO, "3ds Max Import/Export Addon registered successfully with new features.")]))))))))).

(** [unregister]. *)
Definition unregister (r : Registry) : RegResult :=
  and_then (unregister_class "PREFERENCES_OT_detect_max_python" r) (λ r,
  and_then (unregister_class "MaxPreferences" r) (λ r,
  and_then (unregister_class "ExportMax" r) (λ r,
  and_then (unregister_class "ImportMax" r) (λ r,
  and_then (unregister_class "InvokeExportMax" r) (λ r,
  and_then (unregister_class "InvokeImportMax" r) (λ r,
  and_then (unregister_class "ImportMaxFileHandler" r) (λ r,
  inr (mkRegistry (classes r)
         (menu_remove "menu_func_export" (file_export_menu r))
         (menu_remove "menu_func_import" (file_import_menu r))
         (addon_log r
          ++ [(INFO, "3ds Max Import/Export Addon unregistered.")]))))))))).

(* ===================================================================== *)
(** * The paths through [ImportMax.execute] and [export_max] *)
(* ===================================================================== *)

(** The two checks [execute] makes before it writes or runs anything. *)
Definition path_ok (self : ImportMax) : bool :=
  negb (bool_decide (filepath self = EmptyString)
        || negb (endswith (lower (filepath self)) ".max")).
Definition python_ok (env : Env) (w : World) : bool :=
  negb (bool_decide (max_python_path env = EmptyString)
        || negb (bool_decide (max_python_path env ∈ files w))).

(** The files after the script was written and the external process was
    launched. *)
Definition files_after_run (env : Env) (w : World) : gset string :=
  match run_result env with
  | inr _ => ({[temp_script_path_of env]} ∪ files w) ∪ run_writes env
  | inl _ => {[temp_script_path_of env]} ∪ files w
  end.

(** The conversion succeeded: the process returned 0 and the FBX file is
    there. *)
Definition conversion_ok (env : Env) (self : ImportMax) (w : World) : bool :=
  match run_result env with
  | inr (returncode, _, _) =>
      bool_decide (returncode = 0%Z)
      && bool_decide (fbx_file_path_of env self ∈ files_after_run env w)
  | inl _ => false
  end.

(** The scene the importer leaves: the old objects deselected, the new
    ones beside them. *)
Definition scene_with (objs : gmap string Object) (w : World)
    : gmap string Object :=
  (set_selected false <$> objects w) ∪ objs.

(** The objects of [m] with exactly those named in [S] selected. *)
Definition select_only (S : gset string) (m : gmap string Object)
    : gmap string Object :=
  map_imap (λ n o, Some (set_selected (bool_decide (n ∈ S)) o)) m.

(** The objects an export from [w] hands to the FBX exporter: those of
    the source set that are in the view layer and of a type the
    configuration exports. *)
Definition export_selection (self : ExportMax) (w : World) : gset string :=
  filter (λ n, should_select self <$> (obj_type <$> objects w !! n)
               = Some true)
         (export_source self w ∩ view_layer w).

(** The files that are not in the directory [dir]. *)
Definition cleaned (dir : string) (fs : gset string) : gset string :=
  filter (λ p, under_dir dir p = false) fs.

(** The check [export_max] makes before it enters the temporary
    directory. *)
Definition export_python_ok (xenv : ExportEnv) (w : World) : bool :=
  python_ok (export_base xenv) w.

(** The two external steps of an export went well: the exporter wrote a
    file that is not empty, and the process returned 0. *)
Definition export_ok (xenv : ExportEnv) : bool :=
  match fbx_export xenv, run_result (export_base xenv) with
  | inr (Some (S _)), inr (returncode, _, _) => bool_decide (returncode = 0%Z)
  | _, _ => false
  end.

(** [w'] is [w] but for the objects, the files, the reports and the log. *)
Definition frame (w w' : World) : Prop :=
  datas w' = datas w ∧ view_layer w' = view_layer w
  ∧ active w' = active w ∧ calls w' = calls w.


(* ===================================================================== *)
(** * Concrete scenes *)
(* ===================================================================== *)

(** A freshly imported mesh, still selected as the importer leaves it,
    with an action and one material. *)
Definition mesh_a : Object :=
  mkObject "MESH" (Some "Cube") (Some "CubeAction")
           (0, 0, 0)%float (1, 1, 1)%float true.

Definition scene_one_mesh : World :=
  mkWorld {[ "meshA" := mesh_a ]}
          {[ "Cube" := mkData (Some ["Material"]) ]}
          {[ "meshA" ]} None ∅ [] [] [].

(** Every flag of the configuration set. *)
Definition all_flags : ImportMax :=
  mkImportMax "C:\scenes\robot.max" true true true true true true true true true.

(** The seven retention flags set, no corrective transform. *)
Definition keep_all : ImportMax :=
  mkImportMax "C:\scenes\robot.max" true true true true true true true false
              false.

(** An installation, and a scene with one object that predates the
    import. *)
Definition max_python : string := "C:\Max\3dsmaxpy.exe".

Definition scene_before_import : World :=
  mkWorld {[ "old" := mkObject "MESH" (Some "Plane") None
                        (0, 0, 0)%float (1, 1, 1)%float true ]}
          {[ "Plane" := mkData (Some []) ]}
          {[ "old" ]} None {[ max_python ]} [] [] [].

(** A conversion that succeeds and an FBX file that holds no object. *)
Definition env_nothing_imported : Env :=
  mkEnv "C:\Users\u" max_python (inr (0%Z, "done", EmptyString))
        {[ "C:\Users\u\Documents\blender_3dsmax_cache\blender_max_import_robot.fbx" ]}
        (inr (∅, ∅)).

(** A conversion that succeeds and an FBX file the importer rejects. *)
Definition env_import_raises : Env :=
  mkEnv "C:\Users\u" max_python (inr (0%Z, "done", EmptyString))
        {[ "C:\Users\u\Documents\blender_3dsmax_cache\blender_max_import_robot.fbx" ]}
        (inl (RuntimeError "Error: unsupported FBX version")).

(** A conversion that succeeds and an FBX file that holds one mesh. *)
Definition env_one_mesh : Env :=
  mkEnv "C:\Users\u" max_python (inr (0%Z, "done", EmptyString))
        {[ "C:\Users\u\Documents\blender_3dsmax_cache\blender_max_import_robot.fbx" ]}
        (inr ({[ "meshA" := mesh_a ]},
              {[ "Cube" := mkData (Some ["Material"]) ]})).




(** An import of a file that is not a 3ds Max file. *)
Definition bad_extension : ImportMax :=
  mkImportMax "C:\scenes\robot.fbx" true true true true true true true true
              true.


(** A scene to export: a selected mesh and a light in the view layer, and
    a camera in a collection that is excluded from it. *)
Definition scene_to_export : World :=
  mkWorld {[ "body" := mkObject "MESH" (Some "Body") None
                         (0, 0, 0)%float (1, 1, 1)%float true;
             "sun" := mkObject "LIGHT" (Some "Sun") None
                        (0, 0, 0)%float (1, 1, 1)%float false;
             "cam" := mkObject "CAMERA" (Some "Cam") None
                        (0, 0, 0)%float (1, 1, 1)%float false ]}
          {[ "Body" := mkData (Some ["Skin"]); "Sun" := mkData None;
             "Cam" := mkData None ]}
          {[ "body"; "sun" ]} (Some "body") {[ max_python ]} [] [] [].

Definition export_models_lights : ExportMax :=
  mkExportMax true true false false false false.

Definition export_selected_only : ExportMax :=
  mkExportMax true true true true true true.

(** An export in which both external steps go well, and one in which the
    FBX exporter raises. *)
Definition xenv_ok : ExportEnv :=
  mkExportEnv (mkEnv "C:\Users\u" max_python
                 (inr (0%Z, "saved", EmptyString))
                 {[ "C:\out\scene.max" ]} (inr (∅, ∅)))
              "C:\Temp\blender_maya_export_k3x" (λ p, p) (inr (Some 2048)).

Definition xenv_exporter_raises : ExportEnv :=
  mkExportEnv (mkEnv "C:\Users\u" max_python
                 (inr (0%Z, "saved", EmptyString))
                 {[ "C:\out\scene.max" ]} (inr (∅, ∅)))
              "C:\Temp\blender_maya_export_k3x" (λ p, p)
              (inl (RuntimeError "Error: export failed")).

(** A host with nothing of the add-on registered. *)
Definition fresh_registry : Registry :=
  mkRegistry {[ "OtherAddonOperator" ]} ["other_export_entry"] [] [].

Lemma bind_run {A B} (m : M A) (k : A → M B) w :
  (m ≫= k) w =
  match m w with
  | (Ok a, w') => k a w'
  | (Raise e, w') => (Raise e, w')
  end.
Proof. reflexivity. Qed.

Lemma step_refl w : step w w (objects w) (datas w) [] [].
Proof. split; rewrite ?app_nil_r; done. Qed.

Lemma step_trans w w1 w2 os1 ds1 l1 t1 os2 ds2 l2 t2 :
  step w w1 os1 ds1 l1 t1 → step w1 w2 os2 ds2 l2 t2 →
  step w w2 os2 ds2 (l1 ++ l2) (t1 ++ t2).
Proof.
  intros [? ? Hv1 ? ? ? ?] [? ? Hv2 ? ? ? ?]; split; try congruence.
  - by etrans.
  - rewrite app_assoc. congruence.
  - rewrite app_assoc. congruence.
Qed.

Lemma lookup_on_set S h m n :
  on_set S h m !! n = (λ o, if bool_decide (n ∈ S) then h o else o) <$> m !! n.
Proof. unfold on_set. rewrite map_lookup_imap. by destruct (m !! n). Qed.

Lemma on_set_empty h m : on_set ∅ h m = m.
Proof.
  apply map_eq; intros n. rewrite lookup_on_set.
  destruct (m !! n); simpl; [|done].
  by rewrite bool_decide_eq_false_2 by set_solver.
Qed.

(** One more object handled by a loop that applies an idempotent [h]. *)
Lemma on_set_insert S h m x o :
  (∀ o, h (h o) = h o) →
  m !! x = Some o →
  on_set S h (<[x := h o]> m) = on_set ({[x]} ∪ S) h m.
Proof.
  intros Hidem Hx. apply map_eq; intros n.
  rewrite !lookup_on_set, lookup_insert. case_decide as Hn.
  - subst n. rewrite Hx. simpl.
    rewrite (bool_decide_eq_true_2 (x ∈ {[x]} ∪ S)) by set_solver.
    case_bool_decide; [by rewrite Hidem|done].
  - destruct (m !! n); simpl; [|done].
    rewrite (bool_decide_ext (n ∈ S) (n ∈ {[x]} ∪ S)); [done|set_solver].
Qed.

Lemma ret_run {A} (a : A) w : (mret a : M A) w = (Ok a, w).
Proof. reflexivity. Qed.

Lemma update_obj_run h x w o :
  objects w !! x = Some o →
  update_obj h x w = (Ok (), with_objects (<[x := h o]>) w).
Proof. intros H. unfold update_obj. by rewrite H. Qed.

Lemma select_set_run b x w o :
  objects w !! x = Some o →
  select_set x b w = (Ok (), with_objects (<[x := set_selected b o]>) w).
Proof. apply update_obj_run. Qed.

Lemma in_scene_run x w :
  in_scene x w = (Ok (bool_decide (is_Some (objects w !! x))), w).
Proof. reflexivity. Qed.

Lemma in_scene_present x w o :
  objects w !! x = Some o → in_scene x w = (Ok true, w).
Proof. intros H. rewrite in_scene_run, bool_decide_eq_true_2; eauto. Qed.

Lemma in_scene_absent x w :
  objects w !! x = None → in_scene x w = (Ok false, w).
Proof.
  intros H. rewrite in_scene_run, bool_decide_eq_false_2; [done|].
  rewrite H. by intros [??].
Qed.

Lemma get_obj_run x w o :
  objects w !! x = Some o → get_obj x w = (Ok o, w).
Proof. intros H. unfold get_obj. by rewrite H. Qed.

Lemma for_each_cons {A} (x : A) l f :
  for_each (x :: l) f = (f x;; for_each l f).
Proof. reflexivity. Qed.

(** The loops that write one attribute of every imported object. *)
Lemma for_each_update h call l w :
  (∀ o, h (h o) = h o) →
  (∀ n, n ∈ l → is_Some (objects w !! n)) →
  ∃ w', for_each l (λ obj, update_obj h obj;; record (call obj)) w
        = (Ok (), w')
      ∧ step w w' (on_set (list_to_set l) h (objects w)) (datas w) []
             (call <$> l).
Proof.
  intros Hidem. revert w. induction l as [|x l IH]; intros w Hin.
  - exists w. split; [done|]. simpl. rewrite on_set_empty. apply step_refl.
  - destruct (Hin x) as [o Ho]; [set_solver|].
    set (w1 := with_call (call x) (with_objects (<[x := h o]>) w)).
    destruct (IH w1) as (w' & Hrun & Hst).
    { intros n Hn. simpl. rewrite lookup_insert_is_Some'. right.
      apply Hin. set_solver. }
    exists w'. split.
    + rewrite for_each_cons, bind_run, bind_run.
      rewrite (update_obj_run _ _ _ _ Ho). exact Hrun.
    + destruct Hst as [H1 H2 H3 H4 H5 H6 H7]. simpl in *.
      split; simpl; try done.
      * rewrite H1. by apply on_set_insert.
      * rewrite H7. by rewrite <- app_assoc.
Qed.

Lemma on_set_noop S h m x :
  (∀ o, m !! x = Some o → h o = o) →
  on_set ({[x]} ∪ S) h m = on_set S h m.
Proof.
  intros Hx. apply map_eq; intros n. rewrite !lookup_on_set.
  destruct (m !! n) as [o|] eqn:Hn; simpl; [|done]. f_equal.
  destruct (decide (n = x)) as [->|Hne].
  - rewrite (bool_decide_eq_true_2 (x ∈ {[x]} ∪ S)) by set_solver.
    rewrite (Hx _ Hn). by case_bool_decide.
  - rewrite (bool_decide_ext (n ∈ {[x]} ∪ S) (n ∈ S)); [done|set_solver].
Qed.

Lemma by_type_insert S ty m x o h :
  m !! x = Some o → obj_type (h o) = obj_type o →
  by_type S ty (<[x := h o]> m) = by_type S ty m.
Proof.
  intros Hx Hty. apply set_eq; intros n. unfold by_type.
  rewrite !elem_of_filter, lookup_insert. case_decide; [|done].
  subst n. simpl. by rewrite Hx, Hty.
Qed.

Lemma by_type_cons_in S ty m x o :
  m !! x = Some o → obj_type o = ty →
  by_type ({[x]} ∪ S) ty m = {[x]} ∪ by_type S ty m.
Proof.
  intros Hx Hty. apply set_eq; intros n. unfold by_type.
  rewrite elem_of_union, !elem_of_filter, elem_of_union, elem_of_singleton.
  split; [naive_solver|]. intros [->|[??]]; [|by auto].
  rewrite Hx. simpl. by rewrite Hty; auto.
Qed.

Lemma by_type_cons_out S ty m x :
  obj_type <$> m !! x ≠ Some ty →
  by_type ({[x]} ∪ S) ty m = by_type S ty m.
Proof.
  intros Hx. apply set_eq; intros n. unfold by_type.
  rewrite !elem_of_filter, elem_of_union, elem_of_singleton.
  naive_solver.
Qed.

Lemma by_type_present S ty m n :
  n ∈ by_type S ty m ↔
  n ∈ S ∧ ∃ o, m !! n = Some o ∧ obj_type o = ty.
Proof.
  unfold by_type. rewrite elem_of_filter.
  destruct (m !! n) as [o|]; simpl; naive_solver.
Qed.

(** The loop that selects the imported objects and makes the first one
    active. *)
Lemma select_imported_run l b w :
  (∀ n, n ∈ l → is_Some (objects w !! n)) →
  ∃ b' w',
    foldM (λ active_set obj,
             select_set obj true;;
             if negb active_set then set_active obj;; mret true
             else mret active_set) b l w = (Ok b', w')
    ∧ step w w' (on_set (list_to_set l) (set_selected true) (objects w))
           (datas w) [] [].
Proof.
  revert b w. induction l as [|x l IH]; intros b w Hin.
  - exists b, w. split; [done|]. simpl. rewrite on_set_empty.
    apply step_refl.
  - destruct (Hin x) as [o Ho]; [set_solver|].
    set (w0 := with_objects (<[x := set_selected true o]>) w).
    set (w1 := if negb b then with_active (Some x) w0 else w0).
    destruct (IH (if negb b then true else b) w1) as (b' & w' & Hrun & Hst).
    { intros n Hn. subst w1 w0. destruct b; simpl;
        rewrite lookup_insert_is_Some'; right; apply Hin; set_solver. }
    exists b', w'. split.
    + cbn [foldM]. rewrite bind_run, bind_run.
      rewrite (select_set_run _ _ _ _ Ho). fold w0.
      subst w1. destruct b; simpl in *; exact Hrun.
    + assert (objects w1 = <[x := set_selected true o]> (objects w)
              ∧ datas w1 = datas w ∧ view_layer w1 = view_layer w
              ∧ files w1 = files w ∧ reports w1 = reports w
              ∧ log w1 = log w ∧ calls w1 = calls w)
        as (E1 & E2 & E3 & E4 & E5 & E6 & E7)
        by (subst w1 w0; destruct b; done).
      destruct Hst as [H1 H2 H3 H4 H5 H6 H7].
      split; try congruence.
      * rewrite H1, E1. by apply on_set_insert.
      * by rewrite <- E3.
Qed.

(** The loop of [_filter_objects_by_type]: the objects of the type are
    selected and collected. *)
Lemma select_by_type_run ty l acc w :
  ∃ w',
    foldM (λ targeted obj,
             present ← in_scene obj;
             if present : bool then
               o ← get_obj obj;
               if bool_decide (Host.obj_type o = ty) then
                 select_set obj true;;
                 mret ({[obj]} ∪ targeted)
               else mret targeted
             else mret targeted) acc l w
    = (Ok (by_type (list_to_set l) ty (objects w) ∪ acc), w')
    ∧ step w w'
        (on_set (by_type (list_to_set l) ty (objects w)) (set_selected true)
           (objects w))
        (datas w) [] [].
Proof.
  revert acc w. induction l as [|x l IH]; intros acc w.
  - exists w. split.
    + simpl. rewrite ret_run. do 2 f_equal. apply set_eq; intros n.
      rewrite elem_of_union, by_type_present. set_solver.
    + replace (by_type (list_to_set []) ty (objects w)) with (∅ : gset string).
      * rewrite on_set_empty. apply step_refl.
      * apply set_eq; intros n. rewrite by_type_present. set_solver.
  - cbn [foldM list_to_set]. rewrite bind_run, bind_run.
    destruct (objects w !! x) as [o|] eqn:Ho.
    + rewrite (in_scene_present _ _ _ Ho).
      rewrite bind_run, (get_obj_run _ _ _ Ho).
      case_bool_decide as Hty.
      * rewrite bind_run.
        rewrite (select_set_run _ _ _ _ Ho). rewrite ret_run.
        set (w1 := with_objects (<[x := set_selected true o]>) w).
        destruct (IH ({[x]} ∪ acc) w1) as (w' & Hrun & Hst).
        exists w'. split.
        -- rewrite Hrun. do 2 f_equal. subst w1. simpl.
           rewrite (by_type_insert _ _ _ _ _ (set_selected true) Ho eq_refl).
           rewrite (by_type_cons_in _ _ _ _ _ Ho Hty). set_solver.
        -- destruct Hst as [H1 H2 H3 H4 H5 H6 H7]. subst w1. simpl in *.
           split; try done. rewrite H1.
           rewrite (by_type_insert _ _ _ _ _ (set_selected true) Ho eq_refl).
           rewrite (by_type_cons_in _ _ _ _ _ Ho Hty).
           by apply on_set_insert.
      * rewrite ret_run. destruct (IH acc w) as (w' & Hrun & Hst).
        exists w'. rewrite by_type_cons_out; [done|].
        rewrite Ho. simpl. congruence.
    + rewrite (in_scene_absent _ _ Ho).
      rewrite ret_run. destruct (IH acc w) as (w' & Hrun & Hst).
      exists w'. rewrite by_type_cons_out; [done|].
      rewrite Ho. done.
Qed.

Lemma by_type_fmap S ty h m :
  (∀ o, obj_type (h o) = obj_type o) →
  by_type S ty (h <$> m) = by_type S ty m.
Proof.
  intros Hty. apply set_eq; intros n. rewrite !by_type_present.
  rewrite lookup_fmap. destruct (m !! n) as [o|]; simpl; [|naive_solver].
  split; intros [? (o' & Heq & Hty')]; injection Heq as <-;
    (split; [done|]); eexists; (split; [reflexivity|]);
    rewrite ?Hty in *; done.
Qed.

Lemma selected_after_select T ty S m :
  T = by_type S ty m →
  dom (filter (λ kv : string * Object, selected kv.2 = true)
         (on_set T (set_selected true) (set_selected false <$> m))) = T.
Proof.
  intros HT. apply set_eq; intros n. rewrite elem_of_dom. unfold is_Some.
  setoid_rewrite map_lookup_filter_Some.
  setoid_rewrite lookup_on_set. setoid_rewrite lookup_fmap.
  split.
  - intros (o & Hn & Hsel). destruct (m !! n) as [o0|]; simplify_eq/=.
    case_bool_decide; [done|]. done.
  - intros Hn. pose proof Hn as Hn'. rewrite HT, by_type_present in Hn'.
    destruct Hn' as (_ & o & -> & _). simpl.
    rewrite bool_decide_eq_true_2 by done. eauto.
Qed.

Lemma filter_unselected T m :
  filter (λ kv : string * Object, selected kv.2 = false)
    (on_set T (set_selected true) (set_selected false <$> m))
  = delete_stage T m.
Proof.
  apply map_eq; intros n. unfold delete_stage.
  rewrite map_lookup_filter, lookup_on_set, lookup_fmap, map_lookup_imap.
  destruct (m !! n) as [o|]; simpl; [|done].
  case_bool_decide; cbn [selected set_selected];
    [rewrite option_guard_False by done|rewrite option_guard_True by done];
    done.
Qed.

Lemma delete_stage_empty m :
  set_selected false <$>
    on_set ∅ (set_selected true) (set_selected false <$> m)
  = delete_stage ∅ m.
Proof.
  apply map_eq; intros n. unfold delete_stage.
  rewrite lookup_fmap, lookup_on_set, lookup_fmap, map_lookup_imap.
  destruct (m !! n) as [o|]; simpl; [|done].
  by rewrite bool_decide_eq_false_2 by set_solver.
Qed.

Lemma truthy_false (X : gset string) : truthy X = false → X = ∅.
Proof.
  unfold truthy. intros H. apply bool_decide_eq_false in H.
  by destruct (decide (X = ∅)).
Qed.

(** [_filter_objects_by_type(objects, ty, keep=False)] deletes the objects
    of the type it finds and returns them. *)
Lemma filter_objects_by_type_run B ty w :
  ∃ w' l,
    _filter_objects_by_type B ty false w
    = (Ok (by_type B ty (objects w)), w')
    ∧ step w w' (delete_stage (by_type B ty (objects w)) (objects w))
        (datas w) l
        (if truthy (by_type B ty (objects w))
         then [CallDelete (elements (by_type B ty (objects w)))] else []).
Proof.
  unfold _filter_objects_by_type. rewrite bind_run.
  set (w1 := with_objects (fmap (set_selected false)) w).
  change (select_all_deselect w) with (Ok (), w1).
  cbv beta iota. rewrite bind_run.
  destruct (select_by_type_run ty (elements B) ∅ w1) as (w2 & Hrun & Hst).
  rewrite Hrun. clear Hrun.
  rewrite list_to_set_elements_L in Hst |- *.
  assert (by_type B ty (objects w1) = by_type B ty (objects w)) as HT
    by (by apply by_type_fmap).
  rewrite HT in Hst |- *. rewrite (right_id_L ∅ (∪)).
  set (T := by_type B ty (objects w)) in *.
  destruct Hst as [H1 H2 H3 H4 H5 H6 H7]. simpl in *.
  rewrite app_nil_r in H6, H7.
  destruct (truthy T) eqn:HtT; simpl.
  - rewrite bind_run. unfold logger at 1. rewrite bind_run.
    unfold object_delete at 1. rewrite ret_run.
    eexists _, _. split; [reflexivity|].
    split; simpl; try done.
    + rewrite H1. apply filter_unselected.
    + set_solver.
    + rewrite H6. done.
    + rewrite H7. do 3 f_equal. unfold selected_objects. simpl. rewrite H1.
      f_equal. by apply (selected_after_select T ty B).
  - rewrite bind_run, ret_run, bind_run.
    change (select_all_deselect w2)
      with (Ok (), with_objects (fmap (set_selected false)) w2).
    cbv beta iota. rewrite ret_run.
    eexists _, []. split; [reflexivity|].
    split; simpl; rewrite ?app_nil_r; try done.
    rewrite H1. apply truthy_false in HtT. rewrite HtT.
    apply delete_stage_empty.
Qed.

Lemma clear_animation_fixed o :
  ¬ is_Some (animation_data o) → clear_animation o = o.
Proof.
  destruct o as [ty d [a|] r sc sel]; simpl; [|done].
  intros []. eauto.
Qed.

(** The loop of [_filter_animations_from_objects]. *)
Lemma clear_animation_loop_run l c w :
  ∃ c' w' t,
    foldM (λ cleared_count obj,
             present ← in_scene obj;
             if present : bool then
               o ← get_obj obj;
               if bool_decide (is_Some (animation_data o)) then
                 animation_data_clear obj;;
                 mret (S cleared_count)
               else mret cleared_count
             else mret cleared_count) c l w = (Ok c', w')
    ∧ step w w' (on_set (list_to_set l) clear_animation (objects w))
        (datas w) [] t
    ∧ Forall is_removal t.
Proof.
  revert c w. induction l as [|x l IH]; intros c w.
  - exists c, w, []. split; [done|]. split; [|done].
    simpl. rewrite on_set_empty. apply step_refl.
  - cbn [foldM list_to_set]. rewrite bind_run, bind_run.
    destruct (objects w !! x) as [o|] eqn:Ho.
    + rewrite (in_scene_present _ _ _ Ho).
      rewrite bind_run, (get_obj_run _ _ _ Ho).
      case_bool_decide as Ha.
      * rewrite bind_run. unfold animation_data_clear at 1.
        rewrite bind_run, (update_obj_run _ _ _ _ Ho).
        unfold record at 1. rewrite ret_run.
        set (w1 := with_call _ _).
        destruct (IH (S c) w1) as (c' & w' & t & Hrun & Hst & Ht).
        exists c', w', (CallAnimationDataClear x :: t).
        split; [done|]. split; [|by constructor].
        destruct Hst as [H1 H2 H3 H4 H5 H6 H7]. subst w1. simpl in *.
        split; try done.
        -- rewrite H1. by apply on_set_insert.
        -- rewrite H7. by rewrite <- app_assoc.
      * rewrite ret_run.
        destruct (IH c w) as (c' & w' & t & Hrun & Hst & Ht).
        exists c', w', t. rewrite on_set_noop; [done|].
        intros o' ?. simplify_eq. by apply clear_animation_fixed.
    + rewrite (in_scene_absent _ _ Ho), ret_run.
      destruct (IH c w) as (c' & w' & t & Hrun & Hst & Ht).
      exists c', w', t. rewrite on_set_noop; [done|].
      intros o' ?. congruence.
Qed.

Lemma filter_animations_run S w :
  ∃ w' l t,
    _filter_animations_from_objects S false w = (Ok (), w')
    ∧ step w w' (on_set S clear_animation (objects w)) (datas w) l t
    ∧ Forall is_removal t.
Proof.
  unfold _filter_animations_from_objects, when. cbn [negb].
  rewrite bind_run.
  destruct (clear_animation_loop_run (elements S) 0 w)
    as (c & w1 & t & Hrun & Hst & Ht).
  rewrite Hrun. rewrite list_to_set_elements_L in Hst.
  case_bool_decide.
  - eexists _, _, t. split; [reflexivity|]. split; [|done].
    destruct Hst as [H1 H2 H3 H4 H5 H6 H7]. split; simpl; try done.
    by rewrite H6, app_nil_r.
  - exists w1, [], t. by rewrite ret_run.
Qed.

Lemma lookup_on_data D ds d :
  on_data D ds !! d
  = (λ b, if bool_decide (d ∈ D) then strip_materials b else b) <$> ds !! d.
Proof. unfold on_data. rewrite map_lookup_imap. by destruct (ds !! d). Qed.

Lemma on_data_empty ds : on_data ∅ ds = ds.
Proof.
  apply map_eq; intros n. rewrite lookup_on_data.
  destruct (ds !! n); simpl; [|done].
  by rewrite bool_decide_eq_false_2 by set_solver.
Qed.


Lemma on_data_noop D ds d :
  (∀ b, ds !! d = Some b → strip_materials b = b) →
  on_data ({[d]} ∪ D) ds = on_data D ds.
Proof.
  intros Hd. apply map_eq; intros n. rewrite !lookup_on_data.
  destruct (ds !! n) as [b|] eqn:Hn; simpl; [|done]. f_equal.
  destruct (decide (n = d)) as [->|Hne].
  - rewrite (bool_decide_eq_true_2 (d ∈ {[d]} ∪ D)) by set_solver.
    rewrite (Hd _ Hn). by case_bool_decide.
  - rewrite (bool_decide_ext (n ∈ {[d]} ∪ D) (n ∈ D)); [done|set_solver].
Qed.

Lemma on_data_alter D ds d b :
  ds !! d = Some b → strip_materials b = clear_materials b →
  on_data D (alter clear_materials d ds) = on_data ({[d]} ∪ D) ds.
Proof.
  intros Hd Hb. apply map_eq; intros n.
  rewrite !lookup_on_data, lookup_alter. case_decide as Hn.
  - subst n. rewrite Hd. simpl.
    rewrite (bool_decide_eq_true_2 (d ∈ {[d]} ∪ D)) by set_solver.
    rewrite Hb. by case_bool_decide.
  - destruct (ds !! n); simpl; [|done].
    rewrite (bool_decide_ext (n ∈ D) (n ∈ {[d]} ∪ D)); [done|set_solver].
Qed.

Lemma data_names_of_cons_some m x l o d :
  m !! x = Some o → obj_data o = Some d →
  data_names_of m (x :: l) = {[d]} ∪ data_names_of m l.
Proof.
  intros Hx Hd. unfold data_names_of. cbn [omap list_omap].
  rewrite Hx. cbn [mbind option_bind]. by rewrite Hd.
Qed.

Lemma data_names_of_cons_none m x l :
  m !! x ≫= obj_data = None →
  data_names_of m (x :: l) = data_names_of m l.
Proof.
  intros Hx. unfold data_names_of. cbn [omap list_omap]. by rewrite Hx.
Qed.

Lemma get_data_none o w :
  obj_data o = None → get_data o w = (Ok None, w).
Proof. intros H. unfold get_data. by rewrite H. Qed.

Lemma get_data_dangling o w d :
  obj_data o = Some d → datas w !! d = None → get_data o w = (Ok None, w).
Proof. intros H1 H2. unfold get_data. rewrite H1. simpl. by rewrite H2. Qed.

Lemma get_data_some o w d b :
  obj_data o = Some d → datas w !! d = Some b →
  get_data o w = (Ok (Some (d, b)), w).
Proof. intros H1 H2. unfold get_data. rewrite H1. simpl. by rewrite H2. Qed.

(** The loop of [_filter_materials_from_objects]. *)
Lemma clear_materials_loop_run l c w :
  ∃ c' w' t,
    foldM (λ cleared_count obj,
             present ← in_scene obj;
             if present : bool then
               o ← get_obj obj;
               data ← get_data o;
               match data with
               | Some (d, mkData (Some (_ :: _))) =>
                   materials_clear d;;
                   mret (S cleared_count)
               | _ => mret cleared_count
               end
             else mret cleared_count) c l w = (Ok c', w')
    ∧ step w w' (objects w)
        (on_data (data_names_of (objects w) l) (datas w)) [] t
    ∧ Forall is_removal t.
Proof.
  revert c w. induction l as [|x l IH]; intros c w.
  - exists c, w, []. split; [done|]. split; [|done].
    unfold data_names_of. simpl. rewrite on_data_empty. apply step_refl.
  - cbn [foldM]. rewrite bind_run, bind_run.
    destruct (objects w !! x) as [o|] eqn:Ho.
    + rewrite (in_scene_present _ _ _ Ho).
      rewrite bind_run, (get_obj_run _ _ _ Ho), bind_run.
      destruct (obj_data o) as [d|] eqn:Hd.
      * rewrite (data_names_of_cons_some _ _ _ _ d Ho Hd).
        destruct (datas w !! d) as [[[[|mat mats]|]]|] eqn:Hb.
        -- rewrite (get_data_some _ _ _ _ Hd Hb), ret_run.
           destruct (IH c w) as (c' & w' & t & Hrun & Hst & Ht).
           exists c', w', t. rewrite on_data_noop; [done|].
           intros b ?. by simplify_eq.
        -- rewrite (get_data_some _ _ _ _ Hd Hb), bind_run.
           unfold materials_clear at 1. rewrite ret_run.
           set (w1 := with_call _ _).
           destruct (IH (S c) w1) as (c' & w' & t & Hrun & Hst & Ht).
           exists c', w', (CallMaterialsClear d :: t).
           split; [done|]. split; [|by constructor].
           destruct Hst as [H1 H2 H3 H4 H5 H6 H7]. subst w1. simpl in *.
           split; try done.
           ++ rewrite H2. by eapply on_data_alter.
           ++ rewrite H7. by rewrite <- app_assoc.
        -- rewrite (get_data_some _ _ _ _ Hd Hb), ret_run.
           destruct (IH c w) as (c' & w' & t & Hrun & Hst & Ht).
           exists c', w', t. rewrite on_data_noop; [done|].
           intros b ?. by simplify_eq.
        -- rewrite (get_data_dangling _ _ _ Hd Hb), ret_run.
           destruct (IH c w) as (c' & w' & t & Hrun & Hst & Ht).
           exists c', w', t. rewrite on_data_noop; [done|].
           intros b ?. congruence.
      * rewrite data_names_of_cons_none by (by rewrite Ho).
        rewrite (get_data_none _ _ Hd), ret_run. apply IH.
    + rewrite data_names_of_cons_none by (rewrite Ho; done).
      rewrite (in_scene_absent _ _ Ho), ret_run. apply IH.
Qed.

Lemma filter_materials_run S w :
  ∃ w' l t,
    _filter_materials_from_objects S false w = (Ok (), w')
    ∧ step w w' (objects w) (on_data (data_names S (objects w)) (datas w))
        l t
    ∧ Forall is_removal t.
Proof.
  unfold _filter_materials_from_objects, when. cbn [negb].
  rewrite bind_run.
  destruct (clear_materials_loop_run (elements S) 0 w)
    as (c & w1 & t & Hrun & Hst & Ht).
  rewrite Hrun. fold (data_names S (objects w)) in Hst.
  case_bool_decide.
  - eexists _, _, t. split; [reflexivity|]. split; [|done].
    destruct Hst as [H1 H2 H3 H4 H5 H6 H7]. split; simpl; try done.
    by rewrite H6, app_nil_r.
  - exists w1, [], t. by rewrite ret_run.
Qed.

(** ** The stages of the filter on [shape] *)

Lemma lookup_shape B del g m n :
  shape B del g m !! n
  = m !! n ≫= λ o, if bool_decide (n ∈ B)
                   then if del (obj_type o) then None else Some (g o)
                   else Some (set_selected false o).
Proof. unfold shape. by rewrite map_lookup_imap. Qed.

Lemma shape_ext B del del' g g' m :
  (∀ t, del t = del' t) → (∀ o, g o = g' o) →
  shape B del g m = shape B del' g' m.
Proof.
  intros Hd Hg. apply map_eq; intros n. rewrite !lookup_shape.
  destruct (m !! n) as [o|]; simpl; [|done]. by rewrite Hd, Hg.
Qed.

Lemma elem_of_removed_by del B m n :
  n ∈ removed_by del B m ↔
  n ∈ B ∧ ∃ o, m !! n = Some o ∧ del (obj_type o) = true.
Proof.
  unfold removed_by. rewrite elem_of_filter.
  destruct (m !! n) as [o|]; simpl.
  - split; [intros [[= H] ?]; eauto|].
    intros (? & o' & [= <-] & H). by rewrite H.
  - split; [intros [[=] _]|intros (_ & ? & [=] & _)].
Qed.

Lemma by_type_shape B del g m ty :
  settled g →
  by_type B ty (shape B del g m)
  = if del ty then ∅ else by_type B ty m.
Proof.
  intros Hg. apply set_eq; intros n. rewrite by_type_present, lookup_shape.
  destruct (del ty) eqn:Hdel.
  - split; [|set_solver]. intros (Hn & o & Ho & Hty).
    destruct (m !! n) as [o0|]; simplify_eq/=.
    rewrite bool_decide_eq_true_2 in Ho by done.
    destruct (del (obj_type o0)) eqn:Hd0; simplify_eq/=.
    destruct (Hg o0) as (Ht & _). congruence.
  - rewrite by_type_present. split.
    + intros (Hn & o & Ho & Hty). split; [done|].
      destruct (m !! n) as [o0|]; simplify_eq/=.
      rewrite bool_decide_eq_true_2 in Ho by done.
      destruct (del (obj_type o0)) eqn:Hd0; simplify_eq/=.
      exists o0. split; [done|]. by destruct (Hg o0) as (-> & _).
    + intros (Hn & o & Ho & Hty). split; [done|].
      rewrite Ho. simpl. rewrite bool_decide_eq_true_2 by done.
      rewrite Hty, Hdel. exists (g o). split; [done|].
      destruct (Hg o) as (-> & _). done.
Qed.

(** One deletion stage. *)
Lemma delete_stage_shape B del del' g m ty :
  settled g →
  (∀ t, del' t = del t || bool_decide (t = ty)) →
  delete_stage (by_type B ty (shape B del g m)) (shape B del g m)
  = shape B del' g m.
Proof.
  intros Hg Hdel. rewrite by_type_shape by done.
  set (T := if del ty then ∅ else by_type B ty m).
  assert (∀ n o, m !! n = Some o →
            n ∈ T ↔ n ∈ B ∧ obj_type o = ty ∧ del ty = false) as HT.
  { intros n o Ho. subst T. destruct (del ty).
    - split; [set_solver|]. by intros (_ & _ & ?).
    - rewrite by_type_present. split.
      + intros (? & o' & ? & ?). by simplify_eq.
      + intros (? & ? & _). eauto. }
  apply map_eq; intros n. unfold delete_stage.
  rewrite map_lookup_imap, !lookup_shape.
  destruct (m !! n) as [o|] eqn:Ho; simpl; [|done].
  rewrite Hdel. destruct (Hg o) as (Hty & _ & Hsel).
  specialize (HT n o Ho).
  destruct (decide (n ∈ B)) as [HnB|HnB].
  - rewrite !(bool_decide_eq_true_2 (n ∈ B)) by done.
    destruct (del (obj_type o)) eqn:Hd; simpl; [done|].
    destruct (decide (obj_type o = ty)) as [Heq|Hne].
    + rewrite bool_decide_eq_true_2 by (apply HT; by rewrite <- Heq).
      by rewrite bool_decide_eq_true_2.
    + rewrite bool_decide_eq_false_2 by (rewrite HT; naive_solver).
      rewrite bool_decide_eq_false_2 by done. by rewrite Hsel.
  - rewrite !(bool_decide_eq_false_2 (n ∈ B)) by done. simpl.
    by rewrite bool_decide_eq_false_2 by (rewrite HT; naive_solver).
Qed.

Lemma removed_by_stage B del del' g m ty :
  settled g →
  (∀ t, del' t = del t || bool_decide (t = ty)) →
  removed_by del B m ∪ by_type B ty (shape B del g m) = removed_by del' B m.
Proof.
  intros Hg Hdel. rewrite by_type_shape by done.
  apply set_eq; intros n.
  rewrite elem_of_union, !elem_of_removed_by.
  setoid_rewrite Hdel. setoid_rewrite orb_true_iff.
  setoid_rewrite bool_decide_eq_true.
  destruct (del ty) eqn:Hdty.
  - split; [set_solver|]. intros (? & o & ? & [?|?]); [left; eauto|].
    left. split; [done|]. exists o. split; [done|]. congruence.
  - rewrite by_type_present. naive_solver.
Qed.

Lemma removed_by_ext B del del' m :
  (∀ t, del t = del' t) → removed_by del B m = removed_by del' B m.
Proof.
  intros H. apply set_eq; intros n. rewrite !elem_of_removed_by.
  by setoid_rewrite H.
Qed.

(** The animation stage, on what is left of the batch. *)
Lemma strip_stage_shape B del g m h :
  on_set (B ∖ removed_by del B m) h (shape B del g m)
  = shape B del (h ∘ g) m.
Proof.
  apply map_eq; intros n. rewrite lookup_on_set, !lookup_shape.
  destruct (m !! n) as [o|] eqn:Ho; simpl; [|done].
  assert (n ∈ B ∖ removed_by del B m ↔ n ∈ B ∧ del (obj_type o) = false)
    as HS.
  { rewrite elem_of_difference, elem_of_removed_by. split.
    - intros [? Hn]. split; [done|].
      destruct (del (obj_type o)) eqn:Hd; [|done]. destruct Hn; eauto.
    - intros [? Hd]. split; [done|]. intros (_ & o' & ? & ?).
      simplify_eq. congruence. }
  destruct (decide (n ∈ B)) as [HnB|HnB].
  - rewrite !(bool_decide_eq_true_2 (n ∈ B)) by done.
    destruct (del (obj_type o)) eqn:Hd; simpl; [done|].
    by rewrite bool_decide_eq_true_2 by (by apply HS).
  - rewrite !(bool_decide_eq_false_2 (n ∈ B)) by done. simpl.
    by rewrite bool_decide_eq_false_2 by (rewrite HS; naive_solver).
Qed.

Lemma omap_ext_in {A B} (f g : A → option B) (l : list A) :
  (∀ x, x ∈ l → f x = g x) → omap f l = omap g l.
Proof.
  induction l as [|x l IH]; intros H; [done|]. cbn [omap list_omap].
  rewrite (H x) by set_solver. rewrite IH; [done|].
  intros y Hy. apply H. set_solver.
Qed.

Lemma data_names_shape B del g m :
  settled g →
  data_names (B ∖ removed_by del B m) (shape B del g m)
  = data_names (B ∖ removed_by del B m) m.
Proof.
  intros Hg. unfold data_names, data_names_of. f_equal.
  apply omap_ext_in. intros n Hn.
  apply elem_of_elements in Hn.
  rewrite elem_of_difference, elem_of_removed_by in Hn.
  destruct Hn as [HnB Hnr]. rewrite lookup_shape.
  destruct (m !! n) as [o|] eqn:Ho; simpl; [|done].
  rewrite bool_decide_eq_true_2 by done.
  destruct (del (obj_type o)) eqn:Hd; [destruct Hnr; eauto|].
  simpl. by destruct (Hg o) as (_ & -> & _).
Qed.

Lemma deselect_shape B del g m :
  settled g →
  set_selected false <$> shape B del g m = shape B del g m.
Proof.
  intros Hg. apply map_eq; intros n. rewrite lookup_fmap, !lookup_shape.
  destruct (m !! n) as [o|]; simpl; [|done].
  case_bool_decide; [|done].
  destruct (del (obj_type o)); [done|]. simpl.
  by destruct (Hg o) as (_ & _ & ->).
Qed.

Lemma settled_g_xform self : settled (g_xform self).
Proof.
  intros o. unfold g_xform, transformed.
  by destruct (apply_rotation self), (apply_scale self).
Qed.


Lemma settled_strip self :
  settled (if import_animations self then g_xform self
           else clear_animation ∘ g_xform self).
Proof.
  intros o. unfold g_xform, transformed.
  by destruct (apply_rotation self), (apply_scale self),
    (import_animations self).
Qed.

Lemma Forall_delete_call (T : gset string) :
  Forall is_removal (if truthy T then [CallDelete (elements T)] else []).
Proof. destruct (truthy T); repeat constructor. Qed.

(** One [if not self.import_...:] line of the filter. *)
Lemma delete_step_run B c ty del del' g m0 P w :
  settled g →
  (∀ t, del' t = del t || c && bool_decide (t = ty)) →
  objects w = shape B del g m0 →
  P = removed_by del B m0 →
  ∃ w' l t,
    update_if c P (_filter_objects_by_type B ty false) w
    = (Ok (removed_by del' B m0), w')
    ∧ step w w' (shape B del' g m0) (datas w) l t
    ∧ Forall is_removal t.
Proof.
  intros Hg Hdel Hw ->. destruct c; unfold update_if.
  - rewrite bind_run.
    destruct (filter_objects_by_type_run B ty w) as (w' & l & Hrun & Hst).
    rewrite Hrun, ret_run. rewrite Hw in Hst |- *.
    eexists w', l, _. split; [|split; [|apply Forall_delete_call]].
    + do 2 f_equal. by apply removed_by_stage.
    + destruct Hst as [H1 H2 H3 H4 H5 H6 H7]. split; try done.
      rewrite H1. by apply delete_stage_shape.
  - rewrite ret_run. exists w, [], []. split; [|split; [|done]].
    + do 2 f_equal. apply removed_by_ext. intros t.
      by rewrite Hdel, orb_false_r.
    + rewrite (shape_ext B del' del g g m0);
        [rewrite <- Hw; apply step_refl| |done].
      intros t. by rewrite Hdel, orb_false_r.
Qed.

Lemma is_Some_on_set S h m n :
  is_Some (on_set S h m !! n) ↔ is_Some (m !! n).
Proof. rewrite lookup_on_set. apply fmap_is_Some. Qed.

Lemma is_Some_deselect (m : gmap string Object) n :
  is_Some ((set_selected false <$> m) !! n) ↔ is_Some (m !! n).
Proof. rewrite lookup_fmap. apply fmap_is_Some. Qed.

(** The scene after the transform stage (lines 723-743). *)
Lemma prelude_shape self B m :
  set_selected false <$>
    on_set (if apply_scale self then B else ∅) (set_scale scale_001)
      (on_set (if apply_rotation self then B else ∅)
         (set_rotation_x rotation_180)
         (on_set B (set_selected true) (set_selected false <$> m)))
  = shape B (λ _, false) (g_xform self) m.
Proof.
  apply map_eq; intros n.
  rewrite lookup_fmap, !lookup_on_set, lookup_fmap, lookup_shape.
  destruct (m !! n) as [o|]; simpl; [|done]. f_equal.
  unfold g_xform, transformed.
  destruct (apply_rotation self), (apply_scale self);
    destruct (decide (n ∈ B));
    rewrite ?(bool_decide_eq_true_2 (n ∈ B)) by done;
    rewrite ?(bool_decide_eq_false_2 (n ∈ B)) by done;
    rewrite ?(bool_decide_eq_false_2 (n ∈ ∅)) by set_solver;
    done.
Qed.

Lemma final_shape self B m :
  shape B (deletes self) (g_final self) m = final_objects self B m.
Proof.
  apply map_eq; intros n. unfold final_objects.
  rewrite lookup_shape, map_lookup_imap.
  destruct (m !! n) as [o|]; simpl; [|done].
  by case_bool_decide.
Qed.

Lemma set_rotation_x_idem v o :
  set_rotation_x v (set_rotation_x v o) = set_rotation_x v o.
Proof. done. Qed.

Lemma set_scale_idem v o : set_scale v (set_scale v o) = set_scale v o.
Proof. done. Qed.

(** [if self.apply_rotation: ...] *)
Lemma rotation_stage_run (c : bool) B w :
  (∀ n, n ∈ B → is_Some (objects w !! n)) →
  ∃ w' l,
    when c
      (for_each (elements B) (λ obj, set_rotation_euler_x obj rotation_180);;
       logger INFO msg_rotation) w = (Ok (), w')
    ∧ step w w'
        (on_set (if c then B else ∅) (set_rotation_x rotation_180)
           (objects w))
        (datas w) l
        (if c then (λ n, CallSetRotationX n rotation_180) <$> elements B
         else []).
Proof.
  intros Hin. destruct c; unfold when.
  - destruct (for_each_update (set_rotation_x rotation_180)
                (λ n, CallSetRotationX n rotation_180) (elements B) w)
      as (w1 & Hrun & Hst).
    { apply set_rotation_x_idem. }
    { intros n Hn. apply Hin. by apply elem_of_elements. }
    rewrite bind_run. unfold set_rotation_euler_x. rewrite Hrun.
    eexists _, _. split; [reflexivity|].
    rewrite list_to_set_elements_L in Hst.
    destruct Hst as [H1 H2 H3 H4 H5 H6 H7]. split; simpl; try done.
    by rewrite H6, app_nil_r.
  - exists w, []. rewrite ret_run, on_set_empty. split; [done|].
    apply step_refl.
Qed.

(** [if self.apply_scale: ...] *)
Lemma scale_stage_run (c : bool) B w :
  (∀ n, n ∈ B → is_Some (objects w !! n)) →
  ∃ w' l,
    when c
      (for_each (elements B) (λ obj, assign_scale obj scale_001);;
       logger INFO msg_scale) w = (Ok (), w')
    ∧ step w w'
        (on_set (if c then B else ∅) (set_scale scale_001) (objects w))
        (datas w) l
        (if c then (λ n, CallSetScale n scale_001) <$> elements B else []).
Proof.
  intros Hin. destruct c; unfold when.
  - destruct (for_each_update (set_scale scale_001)
                (λ n, CallSetScale n scale_001) (elements B) w)
      as (w1 & Hrun & Hst).
    { apply set_scale_idem. }
    { intros n Hn. apply Hin. by apply elem_of_elements. }
    rewrite bind_run. unfold assign_scale. rewrite Hrun.
    eexists _, _. split; [reflexivity|].
    rewrite list_to_set_elements_L in Hst.
    destruct Hst as [H1 H2 H3 H4 H5 H6 H7]. split; simpl; try done.
    by rewrite H6, app_nil_r.
  - exists w, []. rewrite ret_run, on_set_empty. split; [done|].
    apply step_refl.
Qed.

Lemma select_all_deselect_run w :
  ∃ w', select_all_deselect w = (Ok (), w')
        ∧ step w w' (set_selected false <$> objects w) (datas w) [] [].
Proof.
  eexists. split; [reflexivity|]. split; simpl; by rewrite ?app_nil_r.
Qed.

Lemma removed_by_none B m : removed_by (λ _, false) B m = ∅.
Proof.
  apply set_eq; intros n. rewrite elem_of_removed_by.
  split; [naive_solver|set_solver].
Qed.

(** The armature line and its [elif]. *)
Lemma armature_step_run self B del del' g m0 w :
  settled g →
  (∀ t, del' t = del t || negb (import_armatures self)
                          && bool_decide (t = "ARMATURE")) →
  objects w = shape B del g m0 →
  ∃ w' l t,
    (if negb (import_armatures self) then
       update_if true (removed_by del B m0)
         (_filter_objects_by_type B "ARMATURE" false)
     else
       when (negb (import_models self) && import_animations self)
         (logger INFO msg_armatures_kept);;
       mret (removed_by del B m0)) w
    = (Ok (removed_by del' B m0), w')
    ∧ step w w' (shape B del' g m0) (datas w) l t
    ∧ Forall is_removal t
    ∧ (import_armatures self = true → import_models self = false →
       import_animations self = true → (INFO, msg_armatures_kept) ∈ l).
Proof.
  intros Hg Hdel Hw. destruct (import_armatures self) eqn:Harm; cbn [negb].
  - assert (shape B del' g m0 = shape B del g m0) as ->.
    { apply shape_ext; [|done]. intros t. by rewrite Hdel, orb_false_r. }
    assert (removed_by del' B m0 = removed_by del B m0) as ->.
    { apply removed_by_ext. intros t. by rewrite Hdel, orb_false_r. }
    rewrite bind_run.
    destruct (negb (import_models self) && import_animations self) eqn:Hc;
      unfold when.
    + unfold logger at 1. rewrite ret_run.
      eexists _, [(INFO, msg_armatures_kept)], [].
      split; [reflexivity|]. split; [|split; [done|]].
      * split; simpl; rewrite ?app_nil_r; done.
      * intros _ _ _. set_solver.
    + rewrite ret_run, ret_run. exists w, [], [].
      split; [done|]. split; [|split; [done|]].
      * rewrite <- Hw. apply step_refl.
      * intros _ Hm Ha. rewrite Hm, Ha in Hc. done.
  - destruct (delete_step_run B true "ARMATURE" del del' g m0
                (removed_by del B m0) w Hg)
      as (w' & l & t & Hrun & Hst & Ht); [|done|done|].
    { intros t. by rewrite Hdel. }
    exists w', l, t. split; [done|]. split; [done|]. split; [done|].
    intros [=].
Qed.

(** [if not self.import_animations and remaining_after_deletion: ...] *)
Lemma animation_stage_run (c : bool) B del g m0 w :
  objects w = shape B del g m0 →
  ∃ w' l t,
    when (negb c && truthy (B ∖ removed_by del B m0))
      (_filter_animations_from_objects (B ∖ removed_by del B m0) false) w
    = (Ok (), w')
    ∧ step w w'
        (shape B del (if c then g else clear_animation ∘ g) m0)
        (datas w) l t
    ∧ Forall is_removal t.
Proof.
  intros Hw. destruct c; cbn [negb andb]; unfold when.
  - rewrite ret_run. exists w, [], []. rewrite <- Hw.
    split; [done|]. split; [apply step_refl|done].
  - rewrite <- strip_stage_shape, <- Hw.
    destruct (truthy _) eqn:HS.
    + apply filter_animations_run.
    + apply truthy_false in HS. rewrite HS, on_set_empty, ret_run.
      exists w, [], []. split; [done|]. split; [apply step_refl|done].
Qed.

Lemma data_names_empty m : data_names ∅ m = ∅.
Proof. unfold data_names. by rewrite elements_empty. Qed.

(** [if not self.import_materials and remaining_after_deletion: ...] *)
Lemma materials_stage_run self B del g m0 w :
  settled g →
  objects w = shape B del g m0 →
  ∃ w' l t,
    when (negb (import_materials self)
          && truthy (B ∖ removed_by del B m0))
      (_filter_materials_from_objects (B ∖ removed_by del B m0) false) w
    = (Ok (), w')
    ∧ step w w' (objects w)
        (final_datas self (B ∖ removed_by del B m0) m0 (datas w)) l t
    ∧ Forall is_removal t.
Proof.
  intros Hg Hw. unfold final_datas.
  destruct (import_materials self); cbn [negb andb]; unfold when.
  - rewrite ret_run. exists w, [], [].
    split; [done|]. split; [apply step_refl|done].
  - destruct (truthy _) eqn:HS.
    + rewrite <- (data_names_shape B del g m0 Hg), <- Hw.
      apply filter_materials_run.
    + apply truthy_false in HS.
      rewrite HS, data_names_empty, on_data_empty, ret_run.
      exists w, [], []. split; [done|]. split; [apply step_refl|done].
Qed.


(** The whole filter, in closed form. *)
Lemma filter_imported_run self B w :
  B ⊆ dom (objects w) →
  ∃ w' l t,
    filter_imported self B w
    = (Ok (removed_set self B (objects w),
           B ∖ removed_set self B (objects w)), w')
    ∧ step w w' (final_objects self B (objects w))
        (final_datas self (B ∖ removed_set self B (objects w)) (objects w)
           (datas w))
        l (transform_calls self B ++ t)
    ∧ Forall is_removal t
    ∧ (B ≠ ∅ → import_armatures self = true → import_models self = false →
       import_animations self = true → (INFO, msg_armatures_kept) ∈ l).
Proof.
  intros HB. unfold filter_imported. rewrite bind_run.
  destruct (truthy B) eqn:HtB.
  - rewrite bind_run.
    destruct (select_all_deselect_run w) as (w1 & -> & S1).
    rewrite bind_run.
    destruct (select_imported_run (elements B) false w1)
      as (b' & w2 & -> & S2).
    { intros n Hn%elem_of_elements. rewrite (step_objects _ _ _ _ _ _ S1).
      apply is_Some_deselect, elem_of_dom. auto. }
    rewrite list_to_set_elements_L in S2.
    pose proof (step_trans _ _ _ _ _ _ _ _ _ _ _ S1 S2) as A2.
    rewrite (step_objects _ _ _ _ _ _ S1), (step_datas _ _ _ _ _ _ S1) in A2.
    clear S1 S2.
    rewrite bind_run.
    destruct (rotation_stage_run (apply_rotation self) B w2)
      as (w3 & l3 & -> & S3).
    { intros n Hn. rewrite (step_objects _ _ _ _ _ _ A2).
      apply is_Some_on_set, is_Some_deselect, elem_of_dom. auto. }
    pose proof (step_trans _ _ _ _ _ _ _ _ _ _ _ A2 S3) as A3.
    rewrite (step_objects _ _ _ _ _ _ A2), (step_datas _ _ _ _ _ _ A2) in A3.
    clear A2 S3.
    rewrite bind_run.
    destruct (scale_stage_run (apply_scale self) B w3)
      as (w4 & l4 & -> & S4).
    { intros n Hn. rewrite (step_objects _ _ _ _ _ _ A3).
      apply is_Some_on_set, is_Some_on_set, is_Some_deselect, elem_of_dom.
      auto. }
    pose proof (step_trans _ _ _ _ _ _ _ _ _ _ _ A3 S4) as A4.
    rewrite (step_objects _ _ _ _ _ _ A3), (step_datas _ _ _ _ _ _ A3) in A4.
    clear A3 S4.
    rewrite bind_run.
    destruct (select_all_deselect_run w4) as (w5 & -> & S5).
    pose proof (step_trans _ _ _ _ _ _ _ _ _ _ _ A4 S5) as A5.
    rewrite (step_objects _ _ _ _ _ _ A4), (step_datas _ _ _ _ _ _ A4) in A5.
    clear A4 S5.
    rewrite prelude_shape in A5. simpl in A5. rewrite !app_nil_r in A5.
    fold (transform_calls self B) in A5.
    set (m0 := objects w) in *.
    (* the five category lines *)
    set (d0 := λ _ : string, false).
    set (d1 := λ t, d0 t || negb (import_models self)
                            && bool_decide (t = "MESH")).
    set (d2 := λ t, d1 t || negb (import_lights self)
                            && bool_decide (t = "LIGHT")).
    set (d3 := λ t, d2 t || negb (import_cameras self)
                            && bool_decide (t = "CAMERA")).
    set (d4 := λ t, d3 t || negb (import_splines self)
                            && bool_decide (t = "CURVE")).
    pose proof (settled_g_xform self) as Hg.
    rewrite bind_run.
    destruct (delete_step_run B (negb (import_models self)) "MESH"
                d0 d1 (g_xform self) m0 ∅ w5 Hg)
      as (w6 & l6 & t6 & -> & S6 & T6);
      [done|apply (step_objects _ _ _ _ _ _ A5)
      |by rewrite removed_by_none|].
    pose proof (step_trans _ _ _ _ _ _ _ _ _ _ _ A5 S6) as A6.
    rewrite (step_datas _ _ _ _ _ _ A5) in A6. clear A5 S6.
    rewrite bind_run.
    destruct (delete_step_run B (negb (import_lights self)) "LIGHT"
                d1 d2 (g_xform self) m0 (removed_by d1 B m0) w6 Hg)
      as (w7 & l7 & t7 & -> & S7 & T7);
      [done|apply (step_objects _ _ _ _ _ _ A6)|done|].
    pose proof (step_trans _ _ _ _ _ _ _ _ _ _ _ A6 S7) as A7.
    rewrite (step_datas _ _ _ _ _ _ A6) in A7. clear A6 S7.
    rewrite bind_run.
    destruct (delete_step_run B (negb (import_cameras self)) "CAMERA"
                d2 d3 (g_xform self) m0 (removed_by d2 B m0) w7 Hg)
      as (w8 & l8 & t8 & -> & S8 & T8);
      [done|apply (step_objects _ _ _ _ _ _ A7)|done|].
    pose proof (step_trans _ _ _ _ _ _ _ _ _ _ _ A7 S8) as A8.
    rewrite (step_datas _ _ _ _ _ _ A7) in A8. clear A7 S8.
    rewrite bind_run.
    destruct (delete_step_run B (negb (import_splines self)) "CURVE"
                d3 d4 (g_xform self) m0 (removed_by d3 B m0) w8 Hg)
      as (w9 & l9 & t9 & -> & S9 & T9);
      [done|apply (step_objects _ _ _ _ _ _ A8)|done|].
    pose proof (step_trans _ _ _ _ _ _ _ _ _ _ _ A8 S9) as A9.
    rewrite (step_datas _ _ _ _ _ _ A8) in A9. clear A8 S9.
    rewrite bind_run.
    destruct (armature_step_run self B d4 (deletes self) (g_xform self) m0
                w9 Hg)
      as (w10 & l10 & t10 & -> & S10 & T10 & L10);
      [done|apply (step_objects _ _ _ _ _ _ A9)|].
    pose proof (step_trans _ _ _ _ _ _ _ _ _ _ _ A9 S10) as A10.
    rewrite (step_datas _ _ _ _ _ _ A9) in A10. clear A9 S10.
    unfold removed_set.
    rewrite bind_run.
    destruct (animation_stage_run (import_animations self) B (deletes self)
                (g_xform self) m0 w10)
      as (w11 & l11 & t11 & -> & S11 & T11);
      [apply (step_objects _ _ _ _ _ _ A10)|].
    pose proof (step_trans _ _ _ _ _ _ _ _ _ _ _ A10 S11) as A11.
    rewrite (step_datas _ _ _ _ _ _ A10) in A11. clear A10 S11.
    rewrite bind_run.
    destruct (materials_stage_run self B (deletes self) _ m0 w11
                (settled_strip self))
      as (w12 & l12 & t12 & -> & S12 & T12);
      [apply (step_objects _ _ _ _ _ _ A11)|].
    pose proof (step_trans _ _ _ _ _ _ _ _ _ _ _ A11 S12) as A12.
    rewrite (step_objects _ _ _ _ _ _ A11), (step_datas _ _ _ _ _ _ A11)
      in A12.
    clear A11 S12.
    rewrite ret_run, bind_run.
    destruct (select_all_deselect_run w12) as (w13 & -> & S13).
    pose proof (step_trans _ _ _ _ _ _ _ _ _ _ _ A12 S13) as A13.
    rewrite (step_objects _ _ _ _ _ _ A12), (step_datas _ _ _ _ _ _ A12)
      in A13.
    clear A12 S13.
    rewrite (deselect_shape _ _ _ _ (settled_strip self)) in A13.
    rewrite (shape_ext B (deletes self) (deletes self) _ (g_final self))
      in A13; [|done|].
    2:{ intros o. unfold g_final, g_xform, stripped, transformed.
        by destruct (apply_rotation self), (apply_scale self),
          (import_animations self). }
    rewrite final_shape in A13. rewrite ret_run.
    rewrite <- !app_assoc in A13.
    eexists w13, _, _. split; [reflexivity|]. split; [exact A13|]. split.
    + rewrite !Forall_app. repeat split; done.
    + intros _ H1 H2 H3. specialize (L10 H1 H2 H3).
      rewrite !elem_of_app. tauto.
  - apply truthy_false in HtB. subst B.
    rewrite ret_run, bind_run.
    destruct (select_all_deselect_run w) as (w1 & -> & S1).
    rewrite ret_run.
    assert (removed_set self ∅ (objects w) = ∅) as HR.
    { apply set_eq; intros n. unfold removed_set.
      rewrite elem_of_removed_by. set_solver. }
    rewrite HR.
    exists w1, [], []. split; [do 3 f_equal; set_solver|].
    split; [|split; [done|by intros []]].
    assert (final_objects self ∅ (objects w)
            = set_selected false <$> objects w) as ->.
    { apply map_eq; intros n. unfold final_objects.
      rewrite map_lookup_imap, lookup_fmap.
      destruct (objects w !! n); simpl; [|done].
      by rewrite bool_decide_eq_false_2 by set_solver. }
    assert (final_datas self (∅ ∖ ∅) (objects w) (datas w) = datas w) as ->.
    { unfold final_datas. destruct (import_materials self); [done|].
      rewrite (difference_diag_L ∅), data_names_empty. apply on_data_empty. }
    assert (transform_calls self ∅ = []) as ->.
    { unfold transform_calls. rewrite elements_empty.
      by destruct (apply_rotation self), (apply_scale self). }
    exact S1.
Qed.

(* ===================================================================== *)
(** * Consequences for one object *)
(* ===================================================================== *)

Lemma imported_since_dom existing w :
  imported_since existing w ⊆ dom (objects w).
Proof. unfold imported_since. set_solver. Qed.

Lemma lookup_final_objects self B m n :
  final_objects self B m !! n
  = m !! n ≫= final_object self (bool_decide (n ∈ B)).
Proof. unfold final_objects. by rewrite map_lookup_imap. Qed.

Lemma elem_of_removed_set self B m n :
  n ∈ removed_set self B m ↔
  n ∈ B ∧ ∃ o, m !! n = Some o ∧ deletes self (obj_type o) = true.
Proof. apply elem_of_removed_by. Qed.







(* ===================================================================== *)
(** * The claims about the asset filter *)
(* ===================================================================== *)















Lemma retains_all_deletes self ty :
  retains_all self = true → deletes self ty = false.
Proof.
  unfold retains_all, deletes. rewrite !andb_true_iff.
  intros ((((((-> & ->) & ->) & ->) & _) & _) & ->). done.
Qed.

Lemma retains_all_flags self :
  retains_all self = true →
  import_animations self = true ∧ import_materials self = true.
Proof. unfold retains_all. rewrite !andb_true_iff. tauto. Qed.

(** C2, as the code has it.  With the seven retention flags set the
    filter deletes nothing, every imported object survives, and no
    animation data or material is stripped.  An imported object is
    changed by the corrective transform the two remaining flags ask for
    and by nothing else; with both of them off no transform is applied,
    and the filter only deselects. *)
Theorem keep_all_keeps_everything (self : ImportMax)
    (existing : gset string) (w : World) :
  retains_all self = true →
  let B := imported_since existing w in
  ∃ w',
    filter_imported self B w = (Ok (∅, B), w')
    ∧ datas w' = datas w
    ∧ (∀ n, n ∈ B →
         ∃ o, objects w !! n = Some o
           ∧ objects w' !! n
             = Some (set_selected false (transformed self o)))
    ∧ (∀ n, n ∉ B → objects w' !! n = set_selected false <$> objects w !! n)
    ∧ (apply_rotation self = false → apply_scale self = false →
       objects w' = set_selected false <$> objects w).
Proof.
  intros Hall B.
  destruct (filter_imported_run self B w (imported_since_dom existing w))
    as (w' & l & t & Hrun & Hst & _ & _).
  assert (removed_set self B (objects w) = ∅) as HR.
  { apply set_eq; intros n. rewrite elem_of_removed_set.
    split; [|set_solver]. intros (_ & o & _ & Hd).
    by rewrite retains_all_deletes in Hd. }
  rewrite HR, (difference_empty_L B) in Hrun, Hst.
  destruct (retains_all_flags self Hall) as [Hanim Hmat].
  assert (∀ n, n ∈ B →
            ∃ o, objects w !! n = Some o
              ∧ objects w' !! n
                = Some (set_selected false (transformed self o))) as HB.
  { intros n Hn.
    assert (is_Some (objects w !! n)) as [o Ho].
    { apply elem_of_dom. by apply (imported_since_dom existing w). }
    exists o. split; [done|].
    rewrite (step_objects _ _ _ _ _ _ Hst), lookup_final_objects, Ho. simpl.
    rewrite bool_decide_eq_true_2 by done. unfold final_object.
    rewrite retains_all_deletes by done. unfold stripped.
    by rewrite Hanim. }
  assert (∀ n, n ∉ B →
            objects w' !! n = set_selected false <$> objects w !! n) as HnB.
  { intros n Hn.
    rewrite (step_objects _ _ _ _ _ _ Hst), lookup_final_objects.
    destruct (objects w !! n); simpl; [|done].
    by rewrite bool_decide_eq_false_2. }
  exists w'. split; [exact Hrun|]. split.
  { rewrite (step_datas _ _ _ _ _ _ Hst). unfold final_datas.
    by rewrite Hmat. }
  split; [done|]. split; [done|].
  intros Hrot Hsc. apply map_eq; intros n. rewrite lookup_fmap.
  destruct (decide (n ∈ B)) as [Hn|Hn]; [|by apply HnB].
  destruct (HB n Hn) as (o & Ho & ->). rewrite Ho. simpl.
  unfold transformed. by rewrite Hrot, Hsc.
Qed.

(* ===================================================================== *)
(** * The export selection *)
(* ===================================================================== *)

Lemma export_mark_idem self o :
  export_mark self (export_mark self o) = export_mark self o.
Proof. done. Qed.

Lemma in_view_layer_run x w :
  in_view_layer x w = (Ok (bool_decide (x ∈ view_layer w)), w).
Proof. reflexivity. Qed.

(** The loop of [export_max] over [source_objects]. *)
Lemma export_loop_run self l c w :
  (∀ n, n ∈ l → is_Some (objects w !! n)) →
  ∃ c' w',
    foldM (λ count obj,
             in_layer ← in_view_layer obj;
             if negb in_layer then mret count
             else
               select_set obj false;;
               o ← get_obj obj;
               if should_select self (obj_type o) then
                 select_set obj true;;
                 mret (S count)
               else mret count) c l w = (Ok c', w')
    ∧ objects w'
      = on_set (list_to_set l ∩ view_layer w) (export_mark self) (objects w)
    ∧ view_layer w' = view_layer w.
Proof.
  revert c w. induction l as [|x l IH]; intros c w Hin.
  - exists c, w. split; [done|]. split; [|done].
    rewrite <- (on_set_empty (export_mark self) (objects w)) at 1.
    f_equal. set_solver.
  - cbn [foldM list_to_set]. rewrite bind_run, bind_run, in_view_layer_run.
    destruct (decide (x ∈ view_layer w)) as [Hx|Hx].
    + rewrite bool_decide_eq_true_2 by done. cbn [negb].
      destruct (Hin x) as [o Ho]; [set_solver|].
      rewrite bind_run, (select_set_run _ _ _ _ Ho).
      set (w1 := with_objects _ w).
      assert (objects w1 !! x = Some (set_selected false o)) as Ho1
        by apply lookup_insert_eq.
      rewrite bind_run, (get_obj_run _ _ _ Ho1).
      change (obj_type (set_selected false o)) with (obj_type o).
      assert (∃ c1 w2,
        (if should_select self (obj_type o)
         then select_set x true;; mret (S c) else mret c) w1 = (Ok c1, w2)
        ∧ objects w2 = <[x := export_mark self o]> (objects w)
        ∧ view_layer w2 = view_layer w) as (c1 & w2 & -> & Ho2 & Hv2).
      { unfold export_mark.
        destruct (should_select self (obj_type o)).
        - rewrite bind_run, (select_set_run _ _ _ _ Ho1), ret_run.
          eexists _, _. split; [reflexivity|]. split; [|done].
          subst w1. simpl. apply insert_insert_eq.
        - rewrite ret_run. exists c, w1. split; [done|]. by split. }
      destruct (IH c1 w2) as (c' & w' & Hrun & Hobj & Hvl).
      { intros n Hn. rewrite Ho2, lookup_insert_is_Some'. right.
        apply Hin. set_solver. }
      exists c', w'. split; [done|]. split; [|congruence].
      rewrite Hobj, Ho2, Hv2.
      rewrite (on_set_insert _ _ _ _ _ (export_mark_idem self) Ho).
      f_equal. set_solver.
    + rewrite bool_decide_eq_false_2 by done. cbn [negb]. rewrite ret_run.
      destruct (IH c w) as (c' & w' & Hrun & Hobj & Hvl).
      { intros n Hn. apply Hin. set_solver. }
      exists c', w'. split; [done|]. split; [|done].
      rewrite Hobj. f_equal. set_solver.
Qed.

Lemma selected_objects_deselected (m : gmap string Object) :
  dom (filter (λ kv : string * Object, selected kv.2 = true)
         (set_selected false <$> m)) = ∅.
Proof.
  apply set_eq; intros n. rewrite elem_of_dom. split; [|set_solver].
  intros [o [Ho Hs]%map_lookup_filter_Some]. rewrite lookup_fmap in Ho.
  destruct (m !! n); simplify_eq/=.
Qed.

(** With [use_selection] the source set is read after everything was
    deselected, and is empty; without it, it is the whole scene. *)
Lemma export_source_eq self w :
  export_source self w
  = if use_selection self then ∅ else dom (objects w).
Proof.
  unfold export_source, source_objects.
  rewrite bind_run. unfold get_selected_objects at 1.
  rewrite bind_run. unfold select_all_deselect at 1.
  destruct (use_selection self).
  - destruct (truthy (selected_objects w)); [|done].
    unfold get_selected_objects, selected_objects. simpl.
    apply selected_objects_deselected.
  - unfold scene_object_names. simpl. apply dom_fmap_L.
Qed.

Lemma select_for_export_run self w :
  ∃ sel act count w',
    select_for_export self w = (Ok (sel, act, count), w')
    ∧ objects w'
      = on_set (export_source self w ∩ view_layer w) (export_mark self)
          (set_selected false <$> objects w).
Proof.
  unfold select_for_export.
  rewrite bind_run. unfold get_selected_objects at 1.
  rewrite bind_run. unfold get_active at 1.
  rewrite bind_run. unfold select_all_deselect at 1.
  set (w1 := with_objects _ w).
  assert (∃ w2, source_objects self (selected_objects w) w1
                = (Ok (export_source self w), w2)
                ∧ objects w2 = objects w1 ∧ view_layer w2 = view_layer w)
    as (w2 & Hsrc & Ho2 & Hv2).
  { unfold export_source.
    rewrite bind_run. unfold get_selected_objects at 1.
    rewrite bind_run. unfold select_all_deselect at 1. fold w1.
    unfold source_objects.
    destruct (use_selection self); [destruct (truthy _)|];
      eexists; (split; [reflexivity|done]). }
  rewrite bind_run, Hsrc, bind_run.
  destruct (export_loop_run self (elements (export_source self w)) 0 w2)
    as (c' & w' & -> & Hobj & _).
  { intros n Hn%elem_of_elements. rewrite Ho2. subst w1. simpl.
    apply is_Some_deselect, elem_of_dom.
    rewrite export_source_eq in Hn.
    destruct (use_selection self); set_solver. }
  rewrite ret_run. eexists _, _, _, w'. split; [reflexivity|].
  by rewrite Hobj, list_to_set_elements_L, Ho2, Hv2.
Qed.



(* ===================================================================== *)
(** * [ImportMax.execute]: an import that brings nothing *)
(* ===================================================================== *)

Lemma logger_run lvl msg w :
  logger lvl msg w = (Ok (), with_log (lvl, msg) w).
Proof. reflexivity. Qed.

Lemma report_run lvl msg w :
  report lvl msg w = (Ok (), with_report (lvl, msg) w).
Proof. reflexivity. Qed.

Lemma os_path_exists_run p w :
  os_path_exists p w = (Ok (bool_decide (p ∈ files w)), w).
Proof. reflexivity. Qed.

Lemma write_file_run p w :
  write_file p w = (Ok (), with_files (λ fs, {[p]} ∪ fs) w).
Proof. reflexivity. Qed.

Lemma try_except_run {A} (body : M A) handler w :
  try_except body handler w =
  match body w with
  | (Ok a, w') => (Ok a, w')
  | (Raise e, w') => handler e w'
  end.
Proof. reflexivity. Qed.

Lemma when_logger_run (c : bool) lvl msg w :
  ∃ w', when c (logger lvl msg) w = (Ok (), w')
        ∧ objects w' = objects w ∧ datas w' = datas w
        ∧ files w' = files w ∧ reports w' = reports w.
Proof. destruct c; eexists; (split; [reflexivity|done]). Qed.

Lemma truthy_empty : truthy ∅ = false.
Proof. unfold truthy. by apply bool_decide_eq_false_2; intros []. Qed.

Lemma filter_imported_empty self w :
  filter_imported self ∅ w
  = (Ok (∅, ∅), with_objects (fmap (set_selected false)) w).
Proof. unfold filter_imported. by rewrite truthy_empty. Qed.

Lemma union_nothing_new (m objs : gmap string Object) :
  dom objs ⊆ dom m → m ∪ objs = m.
Proof.
  intros Hdom. apply map_eq; intros n. rewrite lookup_union.
  destruct (m !! n) as [o|] eqn:Ho; simpl.
  - by destruct (objs !! n).
  - destruct (objs !! n) as [o'|] eqn:Ho'; [|done].
    assert (n ∈ dom m) as Hn%elem_of_dom by (apply Hdom, elem_of_dom; eauto).
    rewrite Ho in Hn. by destruct Hn.
Qed.

(** C7, as the code has it.  An import whose conversion succeeded and
    whose FBX file brought no new object is not a failure: the filter is
    skipped, the intermediate FBX file is removed, the operation reports
    success at INFO level, adds no other report, and returns FINISHED.
    The scene is only deselected. *)
Theorem empty_import_finishes (env : Env) (self : ImportMax) (w : World)
    (s_out s_err : string) (objs : gmap string Object)
    (dts : gmap string DataBlock) :
  filepath self ≠ EmptyString →
  endswith (lower (filepath self)) ".max" = true →
  max_python_path env ≠ EmptyString →
  max_python_path env ∈ files w →
  run_result env = inr (0%Z, s_out, s_err) →
  fbx_file_path_of env self ∈ run_writes env →
  fbx_result env = inr (objs, dts) →
  dom objs ⊆ dom (objects w) →
  ∃ w',
    execute env self w = (Ok FINISHED, w')
    ∧ reports w'
      = reports w
        ++ [(INFO, "Successfully imported 3ds Max file: "
                   +:+ os_path_basename (filepath self))]
    ∧ (fbx_file_path_of env self ∉ files w')
    ∧ objects w' = set_selected false <$> objects w.
Proof.
  intros Hpath Hext Hpy Hpyx Hrun Hfbx Himp Hnew.
  unfold execute. cbv zeta.
  rewrite bind_run, logger_run.
  rewrite bool_decide_eq_false_2 by done. rewrite Hext. cbn [negb orb].
  rewrite bind_run, os_path_exists_run. cbn [files with_log].
  rewrite (bool_decide_eq_false_2 (max_python_path env = EmptyString))
    by done.
  rewrite (bool_decide_eq_true_2 (max_python_path env ∈ files w)) by done.
  cbn [negb orb].
  rewrite bind_run, write_file_run, bind_run, logger_run.
  rewrite bind_run, try_except_run, bind_run.
  unfold subprocess_run at 1. rewrite Hrun.
  set (w1 := with_files _ _).
  assert (fbx_file_path_of env self ∈ files w1) as Hfbx1.
  { subst w1. simpl. set_solver. }
  assert (objects w1 = objects w ∧ reports w1 = reports w)
    as [Ho1 Hr1] by done.
  clearbody w1.
  rewrite bind_run.
  destruct (when_logger_run (negb (bool_decide (s_out = EmptyString))) INFO
              ("3ds Max->FBX Script STDOUT:" +:+ nl +:+ s_out) w1)
    as (w2 & -> & Ho2 & Hd2 & Hf2 & Hr2).
  rewrite bind_run.
  destruct (when_logger_run (negb (bool_decide (s_err = EmptyString))) ERROR
              ("3ds Max->FBX Script STDERR:" +:+ nl +:+ s_err) w2)
    as (w3 & -> & Ho3 & Hd3 & Hf3 & Hr3).
  rewrite bool_decide_eq_false_2 by (by intros []).
  rewrite ret_run.
  rewrite bind_run, os_path_exists_run.
  rewrite bool_decide_eq_true_2 by (by rewrite Hf3, Hf2).
  cbn [negb]. rewrite try_except_run.
  rewrite bind_run, logger_run.
  rewrite bind_run. unfold select_all_deselect at 1.
  rewrite bind_run. unfold scene_object_names at 1.
  rewrite bind_run. unfold import_scene_fbx at 1. rewrite Himp.
  rewrite bind_run, logger_run.
  rewrite bind_run. unfold get_imported at 1.
  set (B := imported_since _ _).
  assert (B = ∅) as ->.
  { subst B. unfold imported_since. simpl.
    rewrite union_nothing_new; [set_solver|].
    rewrite dom_fmap_L, Ho3, Ho2, Ho1. done. }
  rewrite bind_run, logger_run.
  rewrite bind_run, filter_imported_empty.
  rewrite bind_run, try_except_run. unfold os_remove at 1.
  rewrite bool_decide_eq_true_2 by (simpl; by rewrite Hf3, Hf2).
  rewrite bind_run, report_run, ret_run.
  eexists. split; [reflexivity|]. simpl.
  rewrite Hr3, Hr2, Hr1, Hf3, Hf2, Ho3, Ho2, Ho1.
  split; [done|]. split; [set_solver|].
  rewrite union_nothing_new by (by rewrite dom_fmap_L).
  apply map_eq; intros n. rewrite !lookup_fmap.
  by destruct (objects w !! n).
Qed.

(* ===================================================================== *)
(** * The claims at concrete scenes *)
(* ===================================================================== *)

Lemma float_pair_neq (a b : float) :
  PrimFloat.eqb a b = false → PrimFloat.eqb a a = true → a ≠ b.
Proof. intros Hab Haa ->. congruence. Qed.

(** C2 as stated fails: with every flag of the configuration set, the
    two corrective flags included, the filter keeps the imported mesh but
    rotates and scales it. *)
Lemma all_flags_still_transform :
  ∃ w',
    filter_imported all_flags (imported_since ∅ scene_one_mesh)
      scene_one_mesh = (Ok (∅, {[ "meshA" ]}), w')
    ∧ rotation_euler <$> objects scene_one_mesh !! "meshA"
      = Some (0, 0, 0)%float
    ∧ rotation_euler <$> objects w' !! "meshA"
      = Some (rotation_180, 0%float, 0%float)
    ∧ scale <$> objects scene_one_mesh !! "meshA" = Some (1, 1, 1)%float
    ∧ scale <$> objects w' !! "meshA" = Some scale_001
    ∧ rotation_180 ≠ 0%float.
Proof.
  exists (filter_imported all_flags (imported_since ∅ scene_one_mesh)
            scene_one_mesh).2.
  split; [vm_compute; reflexivity|].
  split; [vm_compute; reflexivity|].
  split; [vm_compute; reflexivity|].
  split; [vm_compute; reflexivity|].
  split; [vm_compute; reflexivity|].
  apply float_pair_neq; vm_compute; reflexivity.
Qed.

(** C2, an instance of the amended statement: [keep_all] sets the seven
    retention flags, and there the filter leaves the mesh as it was
    imported, deselected. *)
Lemma keep_all_witness :
  retains_all keep_all = true
  ∧ ∃ w',
      filter_imported keep_all (imported_since ∅ scene_one_mesh)
        scene_one_mesh
      = (Ok (∅, imported_since ∅ scene_one_mesh), w')
      ∧ datas w' = datas scene_one_mesh
      ∧ objects w' = set_selected false <$> objects scene_one_mesh.
Proof.
  split; [reflexivity|].
  destruct (keep_all_keeps_everything keep_all ∅ scene_one_mesh eq_refl)
    as (w' & Hrun & Hd & _ & _ & Ho).
  exists w'. split; [exact Hrun|]. split; [exact Hd|].
  apply Ho; reflexivity.
Defined.


(** C7 as stated fails: an import that brings nothing reports success at
    INFO level, and nothing at WARNING level; the generated script is
    still in the cache directory afterwards. *)
Lemma empty_import_no_warning :
  ∃ w',
    execute env_nothing_imported all_flags scene_before_import
    = (Ok FINISHED, w')
    ∧ imported_since (dom (objects scene_before_import)) w' = ∅
    ∧ reports w'
      = [(INFO, "Successfully imported 3ds Max file: robot.max")]
    ∧ Forall (λ r, r.1 ≠ WARNING) (reports w')
    ∧ temp_script_path_of env_nothing_imported ∈ files w'.
Proof.
  exists (execute env_nothing_imported all_flags scene_before_import).2.
  split; [vm_compute; reflexivity|].
  split; [apply (bool_decide_eq_true_1 _); vm_compute; reflexivity|].
  split; [vm_compute; reflexivity|].
  split; [|apply (bool_decide_eq_true_1 _); vm_compute; reflexivity].
  replace (reports _)
    with [(INFO, "Successfully imported 3ds Max file: robot.max")]
    by (vm_compute; reflexivity).
  by repeat constructor.
Qed.

(** C7, an instance of the amended statement: an import whose FBX file
    holds no object meets every hypothesis of [empty_import_finishes]. *)
Lemma empty_import_witness :
  ∃ w',
    execute env_nothing_imported all_flags scene_before_import
    = (Ok FINISHED, w')
    ∧ reports w'
      = reports scene_before_import
        ++ [(INFO, "Successfully imported 3ds Max file: "
                   +:+ os_path_basename (filepath all_flags))]
    ∧ (fbx_file_path_of env_nothing_imported all_flags ∉ files w')
    ∧ objects w' = set_selected false <$> objects scene_before_import.
Proof.
  apply (empty_import_finishes env_nothing_imported all_flags
           scene_before_import "done" EmptyString ∅ ∅).
  - discriminate.
  - vm_compute; reflexivity.
  - discriminate.
  - apply (bool_decide_eq_true_1 _). vm_compute. reflexivity.
  - reflexivity.
  - apply (bool_decide_eq_true_1 _). vm_compute. reflexivity.
  - reflexivity.
  - apply (bool_decide_eq_true_1 _). vm_compute. reflexivity.
Defined.

(** C8 fails on the import side.  When the host's FBX importer raises,
    the operation is cancelled and both temporary files, the generated
    script and the intermediate FBX file, are left behind; and when the
    import succeeds the FBX file is removed but the script is not. *)
Theorem import_leaves_temp_files :
  (∃ w',
     execute env_import_raises all_flags scene_before_import
     = (Ok CANCELLED, w')
     ∧ temp_script_path_of env_import_raises ∈ files w'
     ∧ fbx_file_path_of env_import_raises all_flags ∈ files w')
  ∧ (∃ w',
       execute env_one_mesh all_flags scene_before_import
       = (Ok FINISHED, w')
       ∧ temp_script_path_of env_one_mesh ∈ files w'
       ∧ (fbx_file_path_of env_one_mesh all_flags ∉ files w'))
  ∧ (temp_script_path_of env_import_raises ∉ files scene_before_import)
  ∧ (fbx_file_path_of env_import_raises all_flags
     ∉ files scene_before_import).
Proof.
  split; [|split; [|split]].
  - exists (execute env_import_raises all_flags scene_before_import).2.
    split; [vm_compute; reflexivity|].
    split; apply (bool_decide_eq_true_1 _); vm_compute; reflexivity.
  - exists (execute env_one_mesh all_flags scene_before_import).2.
    split; [vm_compute; reflexivity|].
    split; [apply (bool_decide_eq_true_1 _); vm_compute; reflexivity|].
    apply (bool_decide_eq_false_1 _). vm_compute. reflexivity.
  - apply (bool_decide_eq_false_1 _). vm_compute. reflexivity.
  - apply (bool_decide_eq_false_1 _). vm_compute. reflexivity.
Qed.



(* ===================================================================== *)
(** * [ImportMax.execute], path by path *)
(* ===================================================================== *)



Lemma imported_since_scene_with objs w w4 :
  objects w4 = scene_with objs w →
  imported_since (dom (set_selected false <$> objects w)) w4
  = dom objs ∖ dom (objects w).
Proof.
  unfold imported_since, scene_with. intros ->.
  rewrite dom_union_L, dom_fmap_L. set_solver.
Qed.

Lemma when_logger_frame (c : bool) lvl msg w :
  ∃ w', when c (logger lvl msg) w = (Ok (), w')
        ∧ objects w' = objects w ∧ datas w' = datas w
        ∧ files w' = files w ∧ reports w' = reports w
        ∧ calls w' = calls w.
Proof. destruct c; eexists; (split; [reflexivity|done]). Qed.

(** Every way through [execute]: it returns a status, having added one
    report, along one of four paths. *)
Lemma execute_run env self w :
  ∃ st w' lvl msg,
    execute env self w = (Ok st, w')
    ∧ reports w' = reports w ++ [(lvl, msg)]
    ∧ ((path_ok self && python_ok env w = false
        ∧ st = CANCELLED ∧ lvl = ERROR
        ∧ objects w' = objects w ∧ datas w' = datas w
        ∧ files w' = files w ∧ calls w' = calls w)
       ∨ (path_ok self && python_ok env w = true
          ∧ conversion_ok env self w = false
          ∧ st = CANCELLED ∧ lvl = ERROR
          ∧ objects w' = objects w ∧ datas w' = datas w
          ∧ files w' = files_after_run env w ∧ calls w' = calls w)
       ∨ (path_ok self && python_ok env w = true
          ∧ conversion_ok env self w = true
          ∧ (∃ e, fbx_result env = inl e)
          ∧ st = CANCELLED ∧ lvl = ERROR
          ∧ objects w' = set_selected false <$> objects w
          ∧ datas w' = datas w
          ∧ files w' = files_after_run env w ∧ calls w' = calls w)
       ∨ (path_ok self && python_ok env w = true
          ∧ conversion_ok env self w = true
          ∧ st = FINISHED ∧ lvl = INFO
          ∧ ∃ objs dts t,
              fbx_result env = inr (objs, dts)
              ∧ objects w'
                = final_objects self (dom objs ∖ dom (objects w))
                    (scene_with objs w)
              ∧ datas w'
                = final_datas self
                    ((dom objs ∖ dom (objects w))
                     ∖ removed_set self (dom objs ∖ dom (objects w))
                         (scene_with objs w))
                    (scene_with objs w) (datas w ∪ dts)
              ∧ files w'
                = files_after_run env w ∖ {[fbx_file_path_of env self]}
              ∧ calls w'
                = calls w
                  ++ transform_calls self (dom objs ∖ dom (objects w)) ++ t
              ∧ Forall is_removal t)).
Proof.
  unfold execute. cbv zeta.
  rewrite bind_run, logger_run.
  destruct (path_ok self) eqn:Hpath; unfold path_ok in Hpath.
  2:{ apply negb_false_iff in Hpath. rewrite Hpath.
      rewrite bind_run, report_run, ret_run.
      eexists _, _, _, _. split; [reflexivity|]. split; [reflexivity|].
      left. done. }
  apply negb_true_iff in Hpath. rewrite Hpath.
  rewrite bind_run, os_path_exists_run. cbn [files with_log].
  destruct (python_ok env w) eqn:Hpy; unfold python_ok in Hpy.
  2:{ apply negb_false_iff in Hpy. rewrite Hpy.
      rewrite bind_run, logger_run, bind_run, report_run, ret_run.
      eexists _, _, _, _. split; [reflexivity|]. split; [reflexivity|].
      left. done. }
  apply negb_true_iff in Hpy. rewrite Hpy.
  rewrite bind_run, write_file_run, bind_run, logger_run.
  rewrite bind_run, try_except_run, bind_run.
  unfold subprocess_run at 1. unfold conversion_ok, files_after_run.
  destruct (run_result env) as [e|[[returncode s_out] s_err]] eqn:Hrun.
  { rewrite bind_run, logger_run, bind_run, report_run, ret_run, ret_run.
    eexists _, _, _, _. split; [reflexivity|]. split; [reflexivity|].
    right; left. done. }
  set (w1 := with_files _ _).
  assert (files w1 = ({[temp_script_path_of env]} ∪ files w) ∪ run_writes env
          ∧ objects w1 = objects w ∧ reports w1 = reports w
          ∧ datas w1 = datas w ∧ calls w1 = calls w)
    as (Hf1 & Ho1 & Hr1 & Hd1 & Hc1) by done.
  clearbody w1.
  rewrite bind_run.
  destruct (when_logger_frame (negb (bool_decide (s_out = EmptyString))) INFO
              ("3ds Max->FBX Script STDOUT:" +:+ nl +:+ s_out) w1)
    as (w2 & -> & Ho2 & Hd2 & Hf2 & Hr2 & Hc2).
  rewrite bind_run.
  destruct (when_logger_frame (negb (bool_decide (s_err = EmptyString))) ERROR
              ("3ds Max->FBX Script STDERR:" +:+ nl +:+ s_err) w2)
    as (w3 & -> & Ho3 & Hd3 & Hf3 & Hr3 & Hc3).
  assert (files w3 = ({[temp_script_path_of env]} ∪ files w) ∪ run_writes env
          ∧ objects w3 = objects w ∧ reports w3 = reports w
          ∧ datas w3 = datas w ∧ calls w3 = calls w)
    as (Hf & Ho & Hr & Hd & Hc) by (repeat split; congruence).
  clear Hf1 Ho1 Hr1 Hd1 Hc1 Ho2 Hd2 Hf2 Hr2 Hc2 Ho3 Hd3 Hf3 Hr3 Hc3.
  destruct (decide (returncode = 0%Z)) as [->|Hrc].
  2:{ rewrite bool_decide_eq_true_2 by done.
      rewrite (bool_decide_eq_false_2 (returncode = 0%Z)) by done.
      rewrite bind_run, logger_run, bind_run, report_run, ret_run, ret_run.
      eexists _, _, _, _. split; [reflexivity|]. simpl.
      split; [by rewrite Hr|]. right; left. done. }
  rewrite bool_decide_eq_false_2 by (intros H; by apply H).
  rewrite (bool_decide_eq_true_2 (0%Z = 0%Z)) by done. cbn [andb].
  rewrite ret_run, bind_run, os_path_exists_run, Hf.
  destruct (decide (fbx_file_path_of env self
                    ∈ {[temp_script_path_of env]} ∪ files w ∪ run_writes env))
    as [Hfbx|Hfbx];
    [rewrite !(bool_decide_eq_true_2 _ Hfbx)
    |rewrite !(bool_decide_eq_false_2 _ Hfbx)]; cbn [negb].
  2:{ rewrite bind_run, report_run, ret_run.
      eexists _, _, _, _. split; [reflexivity|]. simpl.
      split; [by rewrite Hr|]. right; left. done. }
  rewrite try_except_run.
  rewrite bind_run, logger_run.
  rewrite bind_run. unfold select_all_deselect at 1.
  rewrite bind_run. unfold scene_object_names at 1.
  rewrite bind_run. unfold import_scene_fbx at 1.
  destruct (fbx_result env) as [e|[objs dts]] eqn:Himp.
  { rewrite bind_run, logger_run, bind_run, report_run, ret_run.
    eexists _, _, _, _. split; [reflexivity|]. simpl.
    split; [by rewrite Hr|]. right; right; left.
    rewrite Ho, Hd, Hf, Hc. repeat split; eauto. }
  rewrite bind_run, logger_run.
  rewrite bind_run. unfold get_imported at 1.
  set (w0 := with_objects (fmap (set_selected false)) _).
  set (w4 := with_log (INFO, "FBX imported into Blender.") _).
  assert (objects w4 = scene_with objs w) as Ho4.
  { subst w4 w0. simpl. unfold scene_with. by rewrite Ho. }
  assert (datas w4 = datas w ∪ dts ∧ files w4 = files w3
          ∧ reports w4 = reports w3 ∧ calls w4 = calls w3)
    as (Hd4 & Hf4 & Hr4 & Hc4).
  { subst w4 w0. simpl. by rewrite Hd. }
  assert (imported_since (dom (objects w0)) w4
          = dom objs ∖ dom (objects w)) as ->.
  { subst w0. simpl. rewrite Ho. by apply imported_since_scene_with. }
  clearbody w4.
  set (B := dom objs ∖ dom (objects w)).
  rewrite bind_run, logger_run, bind_run.
  set (w5 := with_log _ w4).
  destruct (filter_imported_run self B w5)
    as (w6 & l & t & -> & Hst & Ht & _).
  { subst w5 B. simpl. rewrite Ho4. unfold scene_with.
    rewrite dom_union_L. set_solver. }
  subst w5. simpl in Hst. rewrite Ho4, Hd4 in Hst.
  destruct Hst as [H1 H2 _ H4 H5 _ H7]. simpl in *.
  rewrite bind_run, try_except_run. unfold os_remove at 1.
  rewrite bool_decide_eq_true_2 by (rewrite H4, Hf4, Hf; done).
  rewrite bind_run, report_run, ret_run.
  eexists _, _, _, _. split; [reflexivity|]. simpl.
  split; [by rewrite H5, Hr4, Hr|]. right; right; right.
  split; [done|]. split; [done|]. split; [done|]. split; [done|].
  exists objs, dts, t.
  rewrite H4, Hf4, Hf, H7, Hc4, Hc. done.
Qed.

(* ===================================================================== *)
(** * [ExportMax.export_max], path by path *)
(* ===================================================================== *)

Lemma lookup_select_only S m n :
  select_only S m !! n = set_selected (bool_decide (n ∈ S)) <$> m !! n.
Proof. unfold select_only. rewrite map_lookup_imap. by destruct (m !! n). Qed.

Lemma set_selected_same o : set_selected (selected o) o = o.
Proof. by destruct o. Qed.

(** Marking the selected objects as selected changes nothing. *)
Lemma select_only_selected w :
  select_only (selected_objects w) (objects w) = objects w.
Proof.
  apply map_eq. intros n. rewrite lookup_select_only.
  destruct (objects w !! n) as [o|] eqn:Ho; [|done]. simpl. f_equal.
  rewrite <- (set_selected_same o) at 2. f_equal.
  unfold selected_objects.
  destruct (selected o) eqn:Hs.
  - apply bool_decide_eq_true_2, elem_of_dom. exists o.
    by apply map_lookup_filter_Some.
  - apply bool_decide_eq_false_2. intros [o' Ho']%elem_of_dom.
    apply map_lookup_filter_Some in Ho' as [Ho' Hs']. simpl in Hs'.
    congruence.
Qed.

Lemma selected_select_only S m :
  S ⊆ dom m →
  dom (filter (λ kv : string * Object, selected kv.2 = true)
         (select_only S m)) = S.
Proof.
  intros HS. apply set_eq. intros n. rewrite elem_of_dom. split.
  - intros [o Ho]. apply map_lookup_filter_Some in Ho as [Ho Hs].
    rewrite lookup_select_only in Ho.
    destruct (m !! n) as [o'|]; [|done]. simpl in Ho.
    injection Ho as <-. simpl in Hs. by apply bool_decide_eq_true_1 in Hs.
  - intros Hn. destruct (m !! n) as [o|] eqn:Ho.
    + exists (set_selected true o). apply map_lookup_filter_Some.
      split; [|done]. rewrite lookup_select_only, Ho. simpl.
      by rewrite bool_decide_eq_true_2.
    + apply HS, elem_of_dom in Hn. rewrite Ho in Hn. by destruct Hn.
Qed.

Lemma on_set_select S m :
  on_set S (set_selected true) (set_selected false <$> m) = select_only S m.
Proof.
  apply map_eq. intros n.
  rewrite lookup_on_set, lookup_fmap, lookup_select_only.
  destruct (m !! n) as [o|]; [|done]. simpl. by case_bool_decide.
Qed.

Lemma export_selection_dom self w : export_selection self w ⊆ dom (objects w).
Proof.
  intros n [Hn _]%elem_of_filter. apply elem_of_dom.
  destruct (objects w !! n); [done|discriminate].
Qed.

Lemma on_set_export_mark self w :
  on_set (export_source self w ∩ view_layer w) (export_mark self)
    (set_selected false <$> objects w)
  = select_only (export_selection self w) (objects w).
Proof.
  apply map_eq. intros n.
  rewrite lookup_on_set, lookup_fmap, lookup_select_only.
  destruct (objects w !! n) as [o|] eqn:Ho; [|done]. simpl. f_equal.
  unfold export_mark, export_selection.
  destruct (decide (n ∈ export_source self w ∩ view_layer w)) as [Hn|Hn].
  - rewrite (bool_decide_eq_true_2 _ Hn).
    change (obj_type (set_selected false o)) with (obj_type o).
    destruct (should_select self (obj_type o)) eqn:Hs.
    + rewrite bool_decide_eq_true_2; [done|].
      apply elem_of_filter. by rewrite Ho; simpl; rewrite Hs.
    + rewrite bool_decide_eq_false_2; [done|].
      intros [H _]%elem_of_filter. rewrite Ho in H. simpl in H. congruence.
  - rewrite (bool_decide_eq_false_2 _ Hn).
    rewrite bool_decide_eq_false_2; [done|].
    intros [_ H]%elem_of_filter. done.
Qed.

(** The count the export loop keeps. *)
Lemma export_loop_count self tys l c w :
  obj_type <$> objects w = tys →
  (∀ n, n ∈ l → is_Some (objects w !! n)) →
  ∃ w',
    foldM (λ count obj,
             in_layer ← in_view_layer obj;
             if negb in_layer then mret count
             else
               select_set obj false;;
               o ← get_obj obj;
               if should_select self (obj_type o) then
                 select_set obj true;;
                 mret (S count)
               else mret count) c l w
    = (Ok (c + length (filter (λ n, n ∈ view_layer w
                                     ∧ should_select self <$> tys !! n
                                       = Some true) l)), w')
    ∧ frame w w' ∧ files w' = files w ∧ reports w' = reports w
    ∧ log w' = log w.
Proof.
  intros Hty. revert c w Hty. induction l as [|x l IH]; intros c w Hty Hin.
  - exists w. simpl. rewrite Nat.add_0_r. by repeat split.
  - cbn [foldM]. rewrite bind_run, bind_run, in_view_layer_run.
    rewrite filter_cons.
    destruct (decide (x ∈ view_layer w)) as [Hx|Hx].
    + rewrite bool_decide_eq_true_2 by done. cbn [negb].
      destruct (Hin x) as [o Ho]; [set_solver|].
      rewrite bind_run, (select_set_run _ _ _ _ Ho).
      set (w1 := with_objects _ w).
      assert (objects w1 !! x = Some (set_selected false o)) as Ho1
        by apply lookup_insert_eq.
      rewrite bind_run, (get_obj_run _ _ _ Ho1).
      change (obj_type (set_selected false o)) with (obj_type o).
      assert (tys !! x = Some (obj_type o)) as Htx
        by (by rewrite <- Hty, lookup_fmap, Ho).
      assert (∃ w2,
        (if should_select self (obj_type o)
         then select_set x true;; mret (S c) else mret c) w1
        = (Ok (if should_select self (obj_type o) then S c else c), w2)
        ∧ objects w2 = <[x := export_mark self o]> (objects w)
        ∧ frame w w2 ∧ files w2 = files w ∧ reports w2 = reports w
        ∧ log w2 = log w) as (w2 & -> & Ho2 & Hfr & Hf2 & Hr2 & Hl2).
      { unfold export_mark.
        destruct (should_select self (obj_type o)).
        - rewrite bind_run, (select_set_run _ _ _ _ Ho1), ret_run.
          eexists. split; [reflexivity|]. split; [|done].
          subst w1. simpl. apply insert_insert_eq.
        - rewrite ret_run. exists w1. split; [done|]. by split. }
      destruct Hfr as (Hd2 & Hv2 & Ha2 & Hc2).
      destruct (IH (if should_select self (obj_type o) then S c else c) w2)
        as (w' & Hrun & (Hd & Hv & Ha & Hc) & Hf & Hr & Hl).
      { rewrite Ho2, fmap_insert, Hty. by apply insert_id. }
      { intros n Hn. rewrite Ho2, lookup_insert_is_Some'. right.
        apply Hin. set_solver. }
      exists w'. rewrite Hrun, Hv2. split.
      { f_equal. f_equal. rewrite Htx. simpl.
        destruct (should_select self (obj_type o)).
        - rewrite decide_True by done. simpl. lia.
        - rewrite decide_False by (intros [_ ?]; done). done. }
      unfold frame. repeat split; congruence.
    + rewrite bool_decide_eq_false_2 by done. cbn [negb]. rewrite ret_run.
      rewrite decide_False by (intros [? _]; done).
      destruct (IH c w) as (w' & Hrun & Hfr); [done| |].
      { intros n Hn. apply Hin. set_solver. }
      exists w'. by rewrite Hrun.
Qed.

Lemma export_selection_ext self w0 w :
  objects w0 = objects w → view_layer w0 = view_layer w →
  export_selection self w0 = export_selection self w.
Proof.
  intros Ho Hv. unfold export_selection.
  by rewrite !export_source_eq, Ho, Hv.
Qed.

(** Lines 348-375 in full: what is returned, what is left selected. *)
Lemma select_for_export_full self w :
  ∃ w',
    select_for_export self w
    = (Ok (selected_objects w, active w, size (export_selection self w)), w')
    ∧ objects w' = select_only (export_selection self w) (objects w)
    ∧ frame w w' ∧ files w' = files w ∧ reports w' = reports w
    ∧ log w' = log w.
Proof.
  destruct (select_for_export_run self w)
    as (sel & act & count & w' & Hrun & Hobj).
  rewrite on_set_export_mark in Hobj.
  assert (∃ c w3,
    select_for_export self w = (Ok (selected_objects w, active w, c), w3)
    ∧ c = length (filter (λ n, n ∈ view_layer w
                               ∧ should_select self
                                   <$> (obj_type <$> (set_selected false
                                                      <$> objects w)) !! n
                                 = Some true)
                    (elements (export_source self w)))
    ∧ frame w w3 ∧ files w3 = files w ∧ reports w3 = reports w
    ∧ log w3 = log w) as (c & w3 & Hrun3 & -> & Hrest).
  { unfold select_for_export.
    rewrite bind_run. unfold get_selected_objects at 1.
    rewrite bind_run. unfold get_active at 1.
    rewrite bind_run. unfold select_all_deselect at 1.
    set (w1 := with_objects _ w).
    assert (source_objects self (selected_objects w) w1
            = (Ok (export_source self w), w1)) as Hsrc.
    { unfold export_source.
      rewrite bind_run. unfold get_selected_objects at 1.
      rewrite bind_run. unfold select_all_deselect at 1. fold w1.
      unfold source_objects.
      by destruct (use_selection self); [destruct (truthy _)|]. }
    rewrite bind_run, Hsrc, bind_run.
    destruct (export_loop_count self (obj_type <$> objects w1)
                (elements (export_source self w)) 0 w1 eq_refl)
      as (w3 & -> & Hfr & Hf & Hr & Hl).
    { intros n Hn%elem_of_elements. subst w1. simpl.
      apply is_Some_deselect, elem_of_dom.
      rewrite export_source_eq in Hn.
      destruct (use_selection self); set_solver. }
    rewrite ret_run. eexists _, w3. split; [reflexivity|]. done. }
  rewrite Hrun3 in Hrun. injection Hrun as <- <- <- <-.
  exists w3. split; [|done]. rewrite Hrun3.
  do 3 f_equal.
  rewrite <- (size_list_to_set (C := gset string));
    [|apply NoDup_filter, NoDup_elements].
  f_equal. apply set_eq. intros n.
  rewrite elem_of_list_to_set, list_elem_of_filter, elem_of_elements.
  unfold export_selection. rewrite elem_of_filter, elem_of_intersection.
  rewrite !lookup_fmap.
  destruct (objects w !! n) as [o|]; simpl.
  - change (obj_type (set_selected false o)) with (obj_type o). tauto.
  - split; [intros [[_ ?] _]|intros [? _]]; discriminate.
Qed.

Lemma select_only_twice S X m :
  select_only S (select_only X m) = select_only S m.
Proof.
  apply map_eq. intros n. rewrite !lookup_select_only.
  by destruct (m !! n).
Qed.

Lemma dom_select_only S m : dom (select_only S m) = dom m.
Proof.
  apply set_eq. intros n. rewrite !elem_of_dom, lookup_select_only.
  by rewrite fmap_is_Some.
Qed.

Lemma restore_loop_run l w :
  (∀ n, n ∈ l → is_Some (objects w !! n)) →
  ∃ w',
    for_each l (λ obj_ref,
                  in_layer ← in_view_layer obj_ref;
                  when in_layer (select_set obj_ref true)) w = (Ok (), w')
    ∧ objects w'
      = on_set (list_to_set l ∩ view_layer w) (set_selected true) (objects w)
    ∧ frame w w' ∧ files w' = files w ∧ reports w' = reports w
    ∧ log w' = log w.
Proof.
  revert w. induction l as [|x l IH]; intros w Hin.
  - exists w. split; [done|]. split; [|done].
    rewrite <- (on_set_empty (set_selected true) (objects w)) at 1.
    f_equal. set_solver.
  - rewrite for_each_cons, bind_run, bind_run, in_view_layer_run.
    destruct (decide (x ∈ view_layer w)) as [Hx|Hx].
    + rewrite bool_decide_eq_true_2 by done. unfold when at 1.
      destruct (Hin x) as [o Ho]; [set_solver|].
      rewrite (select_set_run _ _ _ _ Ho).
      set (w1 := with_objects _ w).
      destruct (IH w1) as (w' & Hrun & Hobj & (Hd & Hv & Ha & Hc)
                           & Hf & Hr & Hl).
      { intros n Hn. subst w1. simpl. rewrite lookup_insert_is_Some'.
        right. apply Hin. set_solver. }
      exists w'. split; [done|]. split; [|done].
      rewrite Hobj. subst w1. simpl.
      rewrite (on_set_insert _ (set_selected true) _ _ _ (λ _, eq_refl) Ho).
      f_equal. set_solver.
    + rewrite bool_decide_eq_false_2 by done. unfold when at 1.
      rewrite ret_run.
      destruct (IH w) as (w' & Hrun & Hobj & Hrest).
      { intros n Hn. apply Hin. set_solver. }
      exists w'. split; [done|]. split; [|done].
      rewrite Hobj. f_equal. set_solver.
Qed.

(** Lines 381-386 and 425-430: with the active object still the one found
    at the start, the selection is put back as far as the view layer
    holds it. *)
Lemma restore_selection_run sel w :
  sel ⊆ dom (objects w) →
  ∃ w',
    restore_selection sel (active w) w = (Ok (), w')
    ∧ objects w' = select_only (sel ∩ view_layer w) (objects w)
    ∧ frame w w' ∧ files w' = files w ∧ reports w' = reports w
    ∧ log w' = log w.
Proof.
  intros Hsel. unfold restore_selection.
  rewrite bind_run. unfold select_all_deselect at 1.
  set (w1 := with_objects _ w).
  rewrite bind_run.
  assert (∃ w2,
    match active w with
    | Some a => in_layer ← in_view_layer a; when in_layer (set_active a)
    | None => mret ()
    end w1 = (Ok (), w2)
    ∧ objects w2 = objects w1 ∧ frame w w2 ∧ files w2 = files w
    ∧ reports w2 = reports w ∧ log w2 = log w)
    as (w2 & -> & Ho2 & (Hd2 & Hv2 & Ha2 & Hc2) & Hf2 & Hr2 & Hl2).
  { destruct (active w) as [a|] eqn:Ha.
    - rewrite bind_run, in_view_layer_run.
      destruct (bool_decide _); eexists; (split; [reflexivity|]);
        unfold frame; subst w1; simpl; by rewrite ?Ha.
    - exists w1. unfold frame. subst w1. simpl. by rewrite Ha. }
  destruct (restore_loop_run (elements sel) w2)
    as (w' & -> & Hobj & (Hd & Hv & Ha & Hc) & Hf & Hr & Hl).
  { intros n Hn%elem_of_elements. rewrite Ho2. subst w1. simpl.
    by apply is_Some_deselect, elem_of_dom, Hsel. }
  exists w'. split; [done|]. split.
  - rewrite Hobj, Ho2, Hv2, list_to_set_elements_L. subst w1. simpl.
    apply on_set_select.
  - unfold frame. repeat split; congruence.
Qed.

Lemma append_cons x (a b : string) : String x a +:+ b = String x (a +:+ b).
Proof. reflexivity. Qed.

Lemma prefix_app (a b : string) : String.prefix a (a +:+ b) = true.
Proof.
  induction a as [|c a IH]; [by destruct b|].
  rewrite append_cons. simpl. by destruct (Ascii.ascii_dec c c).
Qed.

Lemma string_app_assoc (a b c : string) : (a +:+ b) +:+ c = a +:+ (b +:+ c).
Proof.
  induction a as [|x a IH]; [done|]. rewrite !append_cons. by f_equal.
Qed.

(** A file made with [os.path.join(dir, name)] lies in [dir]. *)
Lemma under_dir_join dir name : under_dir dir (os_path_join dir name) = true.
Proof.
  unfold under_dir, os_path_join.
  rewrite <- string_app_assoc. apply prefix_app.
Qed.

Lemma when_logger_world (c : bool) lvl msg w :
  ∃ l, when c (logger lvl msg) w
       = (Ok (), mkWorld (objects w) (datas w) (view_layer w) (active w)
                   (files w) (log w ++ l) (reports w) (calls w)).
Proof.
  destruct c.
  - by exists [(lvl, msg)].
  - exists []. rewrite app_nil_r. by destruct w.
Qed.

Lemma selected_objects_dom w : selected_objects w ⊆ dom (objects w).
Proof. unfold selected_objects. apply dom_filter_subseteq. Qed.

Lemma temporary_directory_run {A} dir (body : M A) w r w1 :
  body w = (r, w1) →
  temporary_directory dir body w = (r, with_files (cleaned dir) w1).
Proof. intros H. unfold temporary_directory. by rewrite H. Qed.

Lemma size_zero_iff (X : gset string) : size X = 0 ↔ X = ∅.
Proof. by rewrite size_empty_iff; unfold_leibniz. Qed.

(** Every way through [export_max]: it returns a status, having added one
    report and changed nothing but the selection and the files, along
    one of four paths. *)
Lemma export_max_run xenv self filepath w :
  ∃ st w' lvl msg,
    export_max xenv self filepath w = (Ok st, w')
    ∧ reports w' = reports w ++ [(lvl, msg)]
    ∧ frame w w'
    ∧ ((export_python_ok xenv w = false
        ∧ st = CANCELLED ∧ lvl = ERROR
        ∧ objects w' = objects w ∧ files w' = files w)
       ∨ (export_python_ok xenv w = true
          ∧ export_selection self w = ∅
          ∧ st = CANCELLED ∧ lvl = WARNING ∧ msg = msg_no_match
          ∧ objects w'
            = select_only (selected_objects w ∩ view_layer w) (objects w)
          ∧ files w' = cleaned (temp_dir xenv) (files w))
       ∨ (export_python_ok xenv w = true
          ∧ export_selection self w ≠ ∅
          ∧ (∃ e, fbx_export xenv = inl e)
          ∧ st = CANCELLED ∧ lvl = ERROR
          ∧ objects w' = select_only (export_selection self w) (objects w)
          ∧ files w' = cleaned (temp_dir xenv) (files w))
       ∨ (export_python_ok xenv w = true
          ∧ export_selection self w ≠ ∅
          ∧ (∃ k, fbx_export xenv = inr k)
          ∧ st = (if export_ok xenv then FINISHED else CANCELLED)
          ∧ lvl = (if export_ok xenv then INFO else ERROR)
          ∧ objects w'
            = select_only (selected_objects w ∩ view_layer w) (objects w)
          ∧ cleaned (temp_dir xenv) (files w) ⊆ files w'
          ∧ files w'
            ⊆ cleaned (temp_dir xenv)
                (files w ∪ run_writes (export_base xenv)))).
Proof.
  unfold export_max. cbv zeta.
  rewrite bind_run, os_path_exists_run.
  unfold export_python_ok, python_ok.
  destruct (bool_decide (max_python_path (export_base xenv) = EmptyString)
            || negb (bool_decide (max_python_path (export_base xenv)
                                  ∈ files w))) eqn:Hpy.
  { rewrite bind_run, logger_run, bind_run, report_run, ret_run.
    eexists _, _, _, _. split; [reflexivity|]. split; [reflexivity|].
    split; [done|]. left. done. }
  cbn [negb].
  pose proof (under_dir_join (temp_dir xenv) "temp_export.fbx") as Hfbx_in.
  pose proof (under_dir_join (temp_dir xenv)
                "blender_to_max_export_script.py") as Hscr_in.
  set (fbx_path := os_path_join (temp_dir xenv) "temp_export.fbx") in *.
  set (scr := os_path_join (temp_dir xenv)
                "blender_to_max_export_script.py") in *.
  rewrite bind_run.
  set (w0 := with_log (INFO, "Intermediate FBX will be exported to: "
                             +:+ fbx_path) w).
  destruct (select_for_export_full self w0)
    as (w1 & Hsel & Ho1 & (Hd1 & Hv1 & Ha1 & Hc1) & Hf1 & Hr1 & Hl1).
  rewrite (export_selection_ext self w0 w eq_refl eq_refl) in Hsel, Ho1.
  change (selected_objects w0) with (selected_objects w) in Hsel.
  change (active w0) with (active w) in Hsel.
  change (objects w0) with (objects w) in Ho1.
  change (datas w0) with (datas w) in Hd1.
  change (view_layer w0) with (view_layer w) in Hv1.
  change (active w0) with (active w) in Ha1.
  change (calls w0) with (calls w) in Hc1.
  change (files w0) with (files w) in Hf1.
  change (reports w0) with (reports w) in Hr1.
  assert (selected_objects w ⊆ dom (objects w1)) as Hdom1.
  { rewrite Ho1, dom_select_only. apply selected_objects_dom. }
  destruct (decide (export_selection self w = ∅)) as [Hempty|Hsome].
  - (* nothing matches the filters *)
    rewrite Hempty in Hsel. rewrite size_empty in Hsel.
    destruct (restore_selection_run (selected_objects w)
                (with_log (WARNING,
                   "No objects matched export filters for FBX export.")
                   (with_report (WARNING, msg_no_match) w1)))
      as (w2 & Hres & Ho2 & (Hd2 & Hv2 & Ha2 & Hc2) & Hf2 & Hr2 & Hl2);
      [exact Hdom1|].
    simpl in Hres, Ho2, Hd2, Hv2, Ha2, Hc2, Hf2, Hr2.
    rewrite Ha1 in Hres.
    erewrite temporary_directory_run; cycle 1.
    { rewrite bind_run, logger_run. fold w0.
      rewrite bind_run, try_except_run, bind_run, Hsel.
      rewrite bool_decide_eq_true_2 by done.
      rewrite bind_run, report_run, bind_run, logger_run.
      rewrite bind_run, Hres, ret_run, ret_run. reflexivity. }
    cbv beta iota. rewrite ret_run.
    eexists _, _, _, _. split; [reflexivity|]. simpl.
    split; [by rewrite Hr2, Hr1|].
    split; [unfold frame; simpl; repeat split; congruence|].
    right; left.
    split; [done|]. split; [done|]. split; [done|]. split; [done|].
    split; [done|]. split.
    + by rewrite Ho2, Ho1, select_only_twice, Hv1.
    + by rewrite Hf2, Hf1.
  - assert (size (export_selection self w) ≠ 0) as Hsize
      by (by rewrite size_zero_iff).
    destruct (fbx_export xenv) as [e|k] eqn:Hexp.
    + (* the exporter raises *)
      erewrite temporary_directory_run; cycle 1.
      { rewrite bind_run, logger_run. fold w0.
        rewrite bind_run, try_except_run, bind_run, Hsel.
        rewrite bool_decide_eq_false_2 by done.
        rewrite bind_run, logger_run, bind_run.
        unfold export_scene_fbx at 1. rewrite Hexp.
        rewrite bind_run, logger_run, bind_run, logger_run.
        rewrite bind_run, report_run, ret_run, ret_run. reflexivity. }
      cbv beta iota. rewrite ret_run.
      eexists _, _, _, _. split; [reflexivity|]. simpl.
      split; [by rewrite Hr1|].
      split; [unfold frame; simpl; repeat split; congruence|].
      right; right; left.
      split; [done|]. split; [done|]. split; [eauto|].
      split; [done|]. split; [done|]. split; [done|]. by rewrite Hf1.
    + (* the exporter returns *)
      set (w1' := with_log (INFO, "Exporting "
                    +:+ pretty (size (export_selection self w))
                    +:+ " objects to FBX based on filters.") w1).
      set (w1x := match k with
                  | None => w1'
                  | Some _ => with_files (λ fs, {[fbx_path]} ∪ fs) w1'
                  end).
      assert (export_scene_fbx xenv fbx_path w1' = (Ok (), w1x)) as Hx.
      { unfold export_scene_fbx. rewrite Hexp. by destruct k. }
      assert (objects w1x = objects w1 ∧ datas w1x = datas w1
              ∧ view_layer w1x = view_layer w1 ∧ active w1x = active w1
              ∧ calls w1x = calls w1 ∧ reports w1x = reports w1)
        as (Ho1x & Hd1x & Hv1x & Ha1x & Hc1x & Hr1x)
        by (by subst w1x; destruct k).
      assert (files w1x = match k with
                          | None => files w
                          | Some _ => {[fbx_path]} ∪ files w
                          end) as Hf1x
        by (subst w1x; destruct k; simpl; by rewrite Hf1).
      destruct (restore_selection_run (selected_objects w) w1x)
        as (w2 & Hres & Ho2 & (Hd2 & Hv2 & Ha2 & Hc2) & Hf2 & Hr2 & Hl2);
        [by rewrite Ho1x|].
      rewrite Ha1x, Ha1 in Hres.
      assert (objects w2
              = select_only (selected_objects w ∩ view_layer w) (objects w))
        as Hobj2
        by (by rewrite Ho2, Ho1x, Ho1, select_only_twice, Hv1x, Hv1).
      assert (frame w w2) as Hfr2
        by (unfold frame; repeat split; congruence).
      assert (reports w2 = reports w) as Hrep2 by congruence.
      clear Ho2 Hd2 Hv2 Ha2 Hc2 Hr2 Ho1x Hd1x Hv1x Ha1x Hc1x Hr1x.
      destruct Hfr2 as (Hd2 & Hv2 & Ha2 & Hc2).
      assert (fbx_size xenv = match k with Some n => n | None => 0 end)
        as Hsz by (unfold fbx_size; by rewrite Hexp).
      assert ((∃ n, k = Some (S n)) ∨ k = None ∨ k = Some 0) as [[n Hk]|Hk]
        by (destruct k as [[|n]|]; eauto).
      * (* a file that is not empty was written *)
        subst k. rewrite Hf1x in Hf2.
        destruct (run_result (export_base xenv))
          as [e|[[returncode s_out] s_err]] eqn:Hrun.
        -- erewrite temporary_directory_run; cycle 1.
           { rewrite bind_run, logger_run. fold w0.
             rewrite bind_run, try_except_run, bind_run, Hsel.
             rewrite bool_decide_eq_false_2 by done.
             rewrite bind_run, logger_run. fold w1'.
             rewrite bind_run, Hx, bind_run, Hres.
             rewrite bind_run, os_path_exists_run, Hf2, Hsz.
             rewrite bool_decide_eq_true_2 by set_solver.
             rewrite bool_decide_eq_false_2 by done. cbn [negb orb].
             rewrite bind_run, logger_run, ret_run.
             rewrite bind_run, write_file_run, bind_run, logger_run.
             rewrite try_except_run, bind_run.
             unfold subprocess_run at 1. rewrite Hrun.
             rewrite bind_run, logger_run, bind_run, logger_run.
             rewrite bind_run, report_run, ret_run. reflexivity. }
           cbv beta iota. rewrite ret_run.
           eexists _, _, _, _. split; [reflexivity|]. simpl.
           split; [by rewrite Hrep2|].
           split; [unfold frame; simpl; repeat split; congruence|].
           right; right; right. unfold export_ok.
           rewrite Hexp, Hrun.
           split; [done|]. split; [done|]. split; [eauto|].
           split; [done|]. split; [done|]. split; [done|].
           rewrite Hf2. unfold cleaned.
           split; intros p; rewrite !elem_of_filter, !elem_of_union,
             ?elem_of_singleton; naive_solver congruence.
        -- set (w3 := with_files (λ fs, fs ∪ run_writes (export_base xenv))
                        (with_log (INFO,
                           "Running 3ds Max script for final export: "
                           +:+ scr)
                           (with_files (λ fs, {[scr]} ∪ fs)
                              (with_log (INFO,
                                 "FBX export from Blender completed.")
                                 w2)))).
           destruct (when_logger_world
                       (negb (bool_decide (s_out = EmptyString))) INFO
                       ("3ds Max Export Script STDOUT:" +:+ nl +:+ s_out) w3)
             as (l4 & Hw4).
           set (w4 := mkWorld _ _ _ _ _ _ _ _) in Hw4.
           destruct (when_logger_world
                       (negb (bool_decide (s_err = EmptyString))) ERROR
                       ("3ds Max Export Script STDERR:" +:+ nl +:+ s_err) w4)
             as (l5 & Hw5).
           set (w5 := mkWorld _ _ _ _ _ _ _ _) in Hw5.
           destruct (decide (returncode = 0%Z)) as [->|Hrc].
           ++ erewrite temporary_directory_run; cycle 1.
              { rewrite bind_run, logger_run. fold w0.
                rewrite bind_run, try_except_run, bind_run, Hsel.
                rewrite bool_decide_eq_false_2 by done.
                rewrite bind_run, logger_run. fold w1'.
                rewrite bind_run, Hx, bind_run, Hres.
                rewrite bind_run, os_path_exists_run, Hf2, Hsz.
                rewrite bool_decide_eq_true_2 by set_solver.
                rewrite bool_decide_eq_false_2 by done. cbn [negb orb].
                rewrite bind_run, logger_run, ret_run.
                rewrite bind_run, write_file_run, bind_run, logger_run.
                rewrite try_except_run, bind_run.
                unfold subprocess_run at 1. rewrite Hrun. fold w3.
                rewrite bind_run, Hw4, bind_run, Hw5.
                rewrite bool_decide_eq_false_2 by (intros H; by apply H).
                rewrite ret_run. reflexivity. }
              cbv beta iota.
              rewrite bind_run, logger_run, bind_run, report_run, ret_run.
              eexists _, _, _, _. split; [reflexivity|]. simpl.
              split; [by rewrite Hrep2|].
              split; [unfold frame; simpl; repeat split; congruence|].
              right; right; right. unfold export_ok.
              rewrite Hexp, Hrun.
              split; [done|]. split; [done|]. split; [eauto|].
              split; [done|]. split; [done|]. split; [done|].
              rewrite Hf2. unfold cleaned.
              split; intros p; rewrite !elem_of_filter, !elem_of_union,
                ?elem_of_singleton; naive_solver congruence.
           ++ erewrite temporary_directory_run; cycle 1.
              { rewrite bind_run, logger_run. fold w0.
                rewrite bind_run, try_except_run, bind_run, Hsel.
                rewrite bool_decide_eq_false_2 by done.
                rewrite bind_run, logger_run. fold w1'.
                rewrite bind_run, Hx, bind_run, Hres.
                rewrite bind_run, os_path_exists_run, Hf2, Hsz.
                rewrite bool_decide_eq_true_2 by set_solver.
                rewrite bool_decide_eq_false_2 by done. cbn [negb orb].
                rewrite bind_run, logger_run, ret_run.
                rewrite bind_run, write_file_run, bind_run, logger_run.
                rewrite try_except_run, bind_run.
                unfold subprocess_run at 1. rewrite Hrun. fold w3.
                rewrite bind_run, Hw4, bind_run, Hw5.
                rewrite bool_decide_eq_true_2 by done.
                rewrite bind_run, logger_run, bind_run, report_run, ret_run.
                reflexivity. }
              cbv beta iota. rewrite ret_run.
              eexists _, _, _, _. split; [reflexivity|]. simpl.
              split; [by rewrite Hrep2|].
              split; [unfold frame; simpl; repeat split; congruence|].
              right; right; right. unfold export_ok.
              rewrite Hexp, Hrun.
              rewrite (bool_decide_eq_false_2 (returncode = 0%Z)) by done.
              split; [done|]. split; [done|]. split; [eauto|].
              split; [done|]. split; [done|]. split; [done|].
              rewrite Hf2. unfold cleaned.
              split; intros p; rewrite !elem_of_filter, !elem_of_union,
                ?elem_of_singleton; naive_solver congruence.
      * (* no file, or an empty one *)
        assert (negb (bool_decide (fbx_path ∈ files w2))
                || bool_decide (fbx_size xenv = 0) = true) as Hbad.
        { rewrite Hsz. destruct Hk as [-> | ->]; by rewrite orb_true_r. }
        erewrite temporary_directory_run; cycle 1.
        { rewrite bind_run, logger_run. fold w0.
          rewrite bind_run, try_except_run, bind_run, Hsel.
          rewrite bool_decide_eq_false_2 by done.
          rewrite bind_run, logger_run. fold w1'.
          rewrite bind_run, Hx, bind_run, Hres.
          rewrite bind_run, os_path_exists_run, Hbad.
          unfold raise at 1.
          rewrite bind_run, logger_run, bind_run, logger_run.
          rewrite bind_run, report_run, ret_run, ret_run. reflexivity. }
        cbv beta iota. rewrite ret_run.
        eexists _, _, _, _. split; [reflexivity|]. simpl.
        split; [by rewrite Hrep2|].
        split; [unfold frame; simpl; repeat split; congruence|].
        right; right; right.
        assert (export_ok xenv = false) as ->.
        { unfold export_ok. rewrite Hexp. by destruct Hk as [-> | ->]. }
        split; [done|]. split; [done|]. split; [eauto|].
        split; [done|]. split; [done|]. split; [done|].
        rewrite Hf2, Hf1x. unfold cleaned.
        destruct Hk as [-> | ->]; split; intros p;
          rewrite !elem_of_filter, ?elem_of_union, ?elem_of_singleton;
          naive_solver congruence.
Qed.

(* ===================================================================== *)
(** * What [ImportMax.execute] guarantees *)
(* ===================================================================== *)

(** X1.  [ImportMax.execute] never raises: on every path it returns a
    status after exactly one [self.report], which is at INFO level when
    the status is FINISHED and at ERROR level when it is CANCELLED. *)
Theorem execute_reports_once (env : Env) (self : ImportMax) (w : World) :
  ∃ st w' lvl msg,
    execute env self w = (Ok st, w')
    ∧ reports w' = reports w ++ [(lvl, msg)]
    ∧ (st = FINISHED ∧ lvl = INFO ∨ st = CANCELLED ∧ lvl = ERROR).
Proof.
  destruct (execute_run env self w) as (st & w' & lvl & msg & Hrun & Hrep & H).
  exists st, w', lvl, msg. split; [done|]. split; [done|].
  destruct H as [H|[H|[H|H]]]; naive_solver.
Qed.

(** X2.  When the path is empty or does not end in .max (in any case), or
    the 3ds Max Python executable is not set or does not exist, the import
    is cancelled with an ERROR report before anything is written or
    launched: the files, the objects, the datablocks and the history of
    host calls are as they were. *)
Theorem execute_rejects_before_writing (env : Env) (self : ImportMax)
    (w : World) :
  path_ok self && python_ok env w = false →
  ∃ w' msg,
    execute env self w = (Ok CANCELLED, w')
    ∧ reports w' = reports w ++ [(ERROR, msg)]
    ∧ files w' = files w ∧ objects w' = objects w ∧ datas w' = datas w
    ∧ calls w' = calls w.
Proof.
  intros Hpre.
  destruct (execute_run env self w) as (st & w' & lvl & msg & Hrun & Hrep & H).
  destruct H as [H|[H|[H|H]]]; [|destruct H as [H _]; congruence..].
  destruct H as (_ & -> & -> & Ho & Hd & Hf & Hc).
  by exists w', msg.
Qed.

Lemma execute_rejects_witness :
  ∃ w' msg,
    execute env_one_mesh bad_extension scene_before_import
    = (Ok CANCELLED, w')
    ∧ reports w' = reports scene_before_import ++ [(ERROR, msg)]
    ∧ files w' = files scene_before_import
    ∧ objects w' = objects scene_before_import
    ∧ datas w' = datas scene_before_import
    ∧ calls w' = calls scene_before_import.
Proof.
  apply (execute_rejects_before_writing env_one_mesh bad_extension
           scene_before_import).
  vm_compute. reflexivity.
Defined.








(* ===================================================================== *)
(** * What [ExportMax.execute] and [export_max] guarantee *)
(* ===================================================================== *)

Lemma export_execute_run xenv self filepath w :
  filepath ≠ EmptyString →
  export_execute xenv self filepath w
  = export_max xenv self
      (strip_double_extension (normpath xenv (ensure_max_extension filepath)))
      (with_log (INFO, "Initiating 3ds Max export operation. Output: "
                       +:+ strip_double_extension
                             (normpath xenv (ensure_max_extension filepath)))
         w).
Proof.
  intros Hne. unfold export_execute.
  rewrite bool_decide_eq_false_2 by done. cbv zeta.
  by rewrite bind_run, logger_run.
Qed.

Lemma deselect_select_only S m :
  set_selected false <$> select_only S m = set_selected false <$> m.
Proof.
  apply map_eq. intros n. rewrite !lookup_fmap, lookup_select_only.
  by destruct (m !! n).
Qed.

(** X7.  [ExportMax.execute] never raises: with or without a file path,
    and however the export goes, it returns a status after exactly one
    [self.report]; the report is at INFO level when the status is
    FINISHED, and a WARNING or an ERROR when it is CANCELLED. *)
Theorem export_reports_once (xenv : ExportEnv) (self : ExportMax)
    (filepath : string) (w : World) :
  ∃ st w' lvl msg,
    export_execute xenv self filepath w = (Ok st, w')
    ∧ reports w' = reports w ++ [(lvl, msg)]
    ∧ (st = FINISHED ∧ lvl = INFO
       ∨ st = CANCELLED ∧ (lvl = WARNING ∨ lvl = ERROR)).
Proof.
  destruct (decide (filepath = EmptyString)) as [->|Hne].
  { unfold export_execute. rewrite bool_decide_eq_true_2 by done.
    rewrite bind_run, report_run, ret_run.
    eexists _, _, _, _. split; [reflexivity|]. split; [reflexivity|]. eauto. }
  rewrite (export_execute_run _ _ _ _ Hne).
  set (w0 := with_log _ w).
  destruct (export_max_run xenv self
              (strip_double_extension
                 (normpath xenv (ensure_max_extension filepath))) w0)
    as (st & w' & lvl & msg & Hrun & Hrep & _ & H).
  exists st, w', lvl, msg. split; [done|]. split; [done|].
  destruct H as [H|[H|[H|H]]]; [naive_solver..|].
  destruct H as (_ & _ & _ & -> & -> & _).
  destruct (export_ok xenv); eauto.
Qed.

(** X8.  An export changes nothing in the scene but the selection: on
    every path the datablocks, the view layer, the active object and the
    history of host calls are as they were, and every object is there
    with all its attributes, its selection flag apart. *)
Theorem export_changes_only_selection (xenv : ExportEnv) (self : ExportMax)
    (filepath : string) (w : World) :
  ∃ st w',
    export_execute xenv self filepath w = (Ok st, w')
    ∧ datas w' = datas w ∧ view_layer w' = view_layer w
    ∧ active w' = active w ∧ calls w' = calls w
    ∧ set_selected false <$> objects w' = set_selected false <$> objects w.
Proof.
  destruct (decide (filepath = EmptyString)) as [->|Hne].
  { unfold export_execute. rewrite bool_decide_eq_true_2 by done.
    rewrite bind_run, report_run, ret_run.
    eexists _, _. split; [reflexivity|]. done. }
  rewrite (export_execute_run _ _ _ _ Hne).
  set (w0 := with_log _ w).
  destruct (export_max_run xenv self
              (strip_double_extension
                 (normpath xenv (ensure_max_extension filepath))) w0)
    as (st & w' & lvl & msg & Hrun & Hrep & (Hd & Hv & Ha & Hc) & H).
  exists st, w'. split; [done|].
  split; [done|]. split; [done|]. split; [done|]. split; [done|].
  change (objects w) with (objects w0).
  destruct H as [H|[H|[H|H]]].
  - destruct H as (_ & _ & _ & -> & _). done.
  - destruct H as (_ & _ & _ & _ & _ & -> & _). apply deselect_select_only.
  - destruct H as (_ & _ & _ & _ & _ & -> & _). apply deselect_select_only.
  - destruct H as (_ & _ & _ & _ & _ & -> & _). apply deselect_select_only.
Qed.

(** X9.  Every file of an export lives in the temporary directory and
    goes with it: when that directory is new, whichever way [export_max]
    returns no file is left in it, no file that existed is lost, and the
    only new files are those the external process wrote elsewhere. *)
Theorem export_cleans_temp_dir (xenv : ExportEnv) (self : ExportMax)
    (filepath : string) (w : World) :
  (∀ p, p ∈ files w → under_dir (temp_dir xenv) p = false) →
  ∃ st w',
    export_max xenv self filepath w = (Ok st, w')
    ∧ (∀ p, p ∈ files w' → under_dir (temp_dir xenv) p = false)
    ∧ files w ⊆ files w'
    ∧ files w' ⊆ files w ∪ run_writes (export_base xenv).
Proof.
  intros Hfresh.
  assert (cleaned (temp_dir xenv) (files w) = files w) as Hclean.
  { apply set_eq. intros p. unfold cleaned. rewrite elem_of_filter.
    naive_solver. }
  destruct (export_max_run xenv self filepath w)
    as (st & w' & lvl & msg & Hrun & _ & _ & H).
  exists st, w'. split; [done|].
  destruct H as [H|[H|[H|H]]].
  - destruct H as (_ & _ & _ & _ & ->). set_solver.
  - destruct H as (_ & _ & _ & _ & _ & _ & ->). rewrite Hclean. set_solver.
  - destruct H as (_ & _ & _ & _ & _ & _ & ->). rewrite Hclean. set_solver.
  - destruct H as (_ & _ & _ & _ & _ & _ & Hlo & Hhi).
    rewrite Hclean in Hlo. split; [|split; [done|]].
    + intros p Hp. apply Hhi in Hp. unfold cleaned in Hp.
      by apply elem_of_filter in Hp as [Hp _].
    + intros p Hp. apply Hhi in Hp. unfold cleaned in Hp.
      by apply elem_of_filter in Hp as [_ Hp].
Qed.

Lemma export_cleans_temp_dir_witness :
  ∃ st w',
    export_max xenv_ok export_models_lights "C:\out\scene.max"
      scene_to_export = (Ok st, w')
    ∧ (∀ p, p ∈ files w' → under_dir (temp_dir xenv_ok) p = false)
    ∧ files scene_to_export ⊆ files w'
    ∧ files w' ⊆ files scene_to_export ∪ run_writes (export_base xenv_ok).
Proof.
  apply (export_cleans_temp_dir xenv_ok export_models_lights
           "C:\out\scene.max" scene_to_export).
  intros p Hp.
  change (files scene_to_export) with ({[max_python]} : gset string) in Hp.
  apply elem_of_singleton in Hp. subst p. vm_compute. reflexivity.
Defined.

(** X10.  Whenever the FBX exporter returns (or is not called), the
    export puts the user's selection back: if the selected objects were in
    the view layer, every object, selection flag included, and the active
    object are exactly as before the export, whether it then finishes or
    is cancelled. *)
Theorem export_restores_selection (xenv : ExportEnv) (self : ExportMax)
    (filepath : string) (w : World) (k : option nat) :
  fbx_export xenv = inr k →
  selected_objects w ⊆ view_layer w →
  ∃ st w',
    export_max xenv self filepath w = (Ok st, w')
    ∧ objects w' = objects w ∧ active w' = active w.
Proof.
  intros Hexp Hsel.
  assert (select_only (selected_objects w ∩ view_layer w) (objects w)
          = objects w) as Hback.
  { replace (selected_objects w ∩ view_layer w) with (selected_objects w)
      by set_solver.
    apply select_only_selected. }
  destruct (export_max_run xenv self filepath w)
    as (st & w' & lvl & msg & Hrun & _ & (_ & _ & Ha & _) & H).
  exists st, w'. split; [done|]. split; [|done].
  destruct H as [H|[H|[H|H]]].
  - by destruct H as (_ & _ & _ & -> & _).
  - destruct H as (_ & _ & _ & _ & _ & -> & _). done.
  - destruct H as (_ & _ & [e He] & _). congruence.
  - destruct H as (_ & _ & _ & _ & _ & -> & _). done.
Qed.

Lemma export_restores_selection_witness :
  ∃ st w',
    export_max xenv_ok export_models_lights "C:\out\scene.max"
      scene_to_export = (Ok st, w')
    ∧ objects w' = objects scene_to_export
    ∧ active w' = active scene_to_export.
Proof.
  apply (export_restores_selection xenv_ok export_models_lights
           "C:\out\scene.max" scene_to_export (Some 2048)).
  - reflexivity.
  - apply (bool_decide_eq_true_1 _). vm_compute. reflexivity.
Defined.

(** X11.  When the FBX exporter raises, the export is cancelled with an
    ERROR report and the user's selection is not put back: what is left
    selected is what had been selected for the exporter. *)
Theorem export_failure_keeps_export_selection (xenv : ExportEnv)
    (self : ExportMax) (filepath : string) (w : World) (e : Exn)
    (n : string) :
  export_python_ok xenv w = true →
  n ∈ export_selection self w →
  fbx_export xenv = inl e →
  ∃ w' msg,
    export_max xenv self filepath w = (Ok CANCELLED, w')
    ∧ reports w' = reports w ++ [(ERROR, msg)]
    ∧ selected_objects w' = export_selection self w.
Proof.
  intros Hpy Hn Hexp.
  destruct (export_max_run xenv self filepath w)
    as (st & w' & lvl & msg & Hrun & Hrep & _ & H).
  destruct H as [H|[H|[H|H]]].
  - destruct H as [H _]. congruence.
  - destruct H as (_ & H & _). set_solver.
  - destruct H as (_ & _ & _ & -> & -> & Ho & _).
    exists w', msg. split; [done|]. split; [done|].
    unfold selected_objects. rewrite Ho.
    apply selected_select_only, export_selection_dom.
  - destruct H as (_ & _ & [k Hk] & _). congruence.
Qed.

Lemma export_failure_witness :
  ∃ w' msg,
    export_max xenv_exporter_raises export_models_lights "C:\out\scene.max"
      scene_to_export = (Ok CANCELLED, w')
    ∧ reports w' = reports scene_to_export ++ [(ERROR, msg)]
    ∧ selected_objects w'
      = export_selection export_models_lights scene_to_export.
Proof.
  apply (export_failure_keeps_export_selection xenv_exporter_raises
           export_models_lights "C:\out\scene.max" scene_to_export
           (RuntimeError "Error: export failed") "sun").
  - vm_compute. reflexivity.
  - apply (bool_decide_eq_true_1 _). vm_compute. reflexivity.
  - reflexivity.
Defined.

Lemma export_selection_use_selection self w :
  use_selection self = true → export_selection self w = ∅.
Proof.
  intros Hsel. unfold export_selection. rewrite export_source_eq, Hsel.
  set_solver.
Qed.

(** X12.  With [use_selection] set nothing is ever exported: the source
    objects are read from the selection after everything was deselected,
    so the export is cancelled whatever the scene and the selection are
    (with the warning that no object matches the filters, once the Python
    executable was found) and it writes no file. *)
Theorem export_use_selection_cancels (xenv : ExportEnv) (self : ExportMax)
    (filepath : string) (w : World) :
  use_selection self = true →
  ∃ w' lvl msg,
    export_max xenv self filepath w = (Ok CANCELLED, w')
    ∧ reports w' = reports w ++ [(lvl, msg)]
    ∧ (export_python_ok xenv w = true →
       lvl = WARNING ∧ msg = msg_no_match)
    ∧ files w' ⊆ files w.
Proof.
  intros Hsel. pose proof (export_selection_use_selection self w Hsel) as He.
  destruct (export_max_run xenv self filepath w)
    as (st & w' & lvl & msg & Hrun & Hrep & _ & H).
  destruct H as [H|[H|[H|H]]].
  - destruct H as (Hpy & -> & _ & _ & Hf).
    exists w', lvl, msg. split; [done|]. split; [done|].
    split; [congruence|]. by rewrite Hf.
  - destruct H as (_ & _ & -> & -> & -> & _ & Hf).
    exists w', WARNING, msg_no_match. split; [done|]. split; [done|].
    split; [done|]. rewrite Hf. unfold cleaned.
    intros p Hp. by apply elem_of_filter in Hp as [_ Hp].
  - destruct H as (_ & H & _). done.
  - destruct H as (_ & H & _). done.
Qed.

Lemma export_use_selection_witness :
  ∃ w' lvl msg,
    export_max xenv_ok export_selected_only "C:\out\scene.max"
      scene_to_export = (Ok CANCELLED, w')
    ∧ reports w' = reports scene_to_export ++ [(lvl, msg)]
    ∧ (export_python_ok xenv_ok scene_to_export = true →
       lvl = WARNING ∧ msg = msg_no_match)
    ∧ files w' ⊆ files scene_to_export.
Proof.
  apply (export_use_selection_cancels xenv_ok export_selected_only
           "C:\out\scene.max" scene_to_export).
  reflexivity.
Defined.

(** X13.  The selection pass of an export (lines 348-375) returns the
    selection and the active object it found, and leaves selected exactly
    the objects of the scene that are in the view layer and whose type the
    configuration exports (none at all with [use_selection]); the count
    it returns is the number of objects it leaves selected. *)
Theorem export_selection_count (self : ExportMax) (w : World) :
  ∃ count w',
    select_for_export self w = (Ok (selected_objects w, active w, count), w')
    ∧ count = size (selected_objects w')
    ∧ ∀ n, n ∈ selected_objects w' ↔
        use_selection self = false ∧ n ∈ view_layer w
        ∧ ∃ o, objects w !! n = Some o
               ∧ should_select self (obj_type o) = true.
Proof.
  destruct (select_for_export_full self w) as (w' & Hrun & Ho & _).
  assert (selected_objects w' = export_selection self w) as Hs.
  { unfold selected_objects. rewrite Ho.
    apply selected_select_only, export_selection_dom. }
  exists (size (export_selection self w)), w'.
  split; [done|]. split; [by rewrite Hs|].
  intros n. rewrite Hs. unfold export_selection.
  rewrite elem_of_filter, elem_of_intersection, export_source_eq.
  destruct (use_selection self).
  - split; [set_solver|]. intros [? _]. done.
  - rewrite elem_of_dom. destruct (objects w !! n) as [o|]; simpl.
    + split.
      * intros (Hsh & _ & Hv). injection Hsh as Hsh. eauto.
      * intros (_ & Hv & o' & [= <-] & Hsh). rewrite Hsh. eauto.
    + split.
      * intros (? & _). done.
      * intros (_ & _ & o' & ? & _). done.
Qed.

(** X14.  An export finishes exactly when the Python executable is found,
    at least one object matches the filters, the FBX exporter writes a
    file that is not empty, and the external process returns 0; in every
    other case it is cancelled. *)
Theorem export_finishes_iff (xenv : ExportEnv) (self : ExportMax)
    (filepath : string) (w : World) :
  ∃ st w',
    export_max xenv self filepath w = (Ok st, w')
    ∧ (st = FINISHED ↔
       export_python_ok xenv w = true
       ∧ (∃ n, n ∈ export_selection self w)
       ∧ export_ok xenv = true).
Proof.
  destruct (export_max_run xenv self filepath w)
    as (st & w' & lvl & msg & Hrun & Hrep & _ & H).
  exists st, w'. split; [done|].
  destruct H as [H|[H|[H|H]]].
  - destruct H as (Hpy & -> & _).
    split; [done|]. intros [? _]. congruence.
  - destruct H as (_ & He & -> & _).
    split; [done|]. intros (_ & [n Hn] & _). set_solver.
  - destruct H as (_ & _ & [e He] & -> & _).
    split; [done|]. intros (_ & _ & Hok). unfold export_ok in Hok.
    by rewrite He in Hok.
  - destruct H as (Hpy & Hne & _ & -> & _).
    apply set_choose_L in Hne.
    destruct (export_ok xenv); split; eauto; try done.
    intros (_ & _ & ?). done.
Qed.

(* ===================================================================== *)
(** * The file name [ExportMax.execute] settles on *)
(* ===================================================================== *)

Lemma lower_app (a b : string) : lower (a +:+ b) = lower a +:+ lower b.
Proof.
  induction a as [|c a IH]; [done|].
  rewrite append_cons. simpl. rewrite append_cons. by f_equal.
Qed.

Lemma length_lower (s : string) : String.length (lower s) = String.length s.
Proof. induction s as [|c s IH]; simpl; [done|]. by f_equal. Qed.

Lemma length_app (a b : string) :
  String.length (a +:+ b) = String.length a + String.length b.
Proof.
  induction a as [|c a IH]; [done|]. rewrite append_cons. simpl. by f_equal.
Qed.

Lemma substring_full (s : string) : substring 0 (String.length s) s = s.
Proof. induction s as [|c s IH]; simpl; [done|]. by f_equal. Qed.

Lemma substring_app_r (a b : string) :
  substring (String.length a) (String.length b) (a +:+ b) = b.
Proof.
  induction a as [|c a IH]; [apply substring_full|].
  rewrite append_cons. simpl. exact IH.
Qed.

Lemma substring_app_l (a b : string) :
  substring 0 (String.length a) (a +:+ b) = a.
Proof.
  induction a as [|c a IH]; [by destruct b|].
  rewrite append_cons. simpl. by f_equal.
Qed.

Lemma substring_split (s : string) (i : nat) :
  (i ≤ String.length s)%nat →
  substring 0 i s +:+ substring i (String.length s - i) s = s.
Proof.
  revert i. induction s as [|c s IH]; intros i Hi.
  - simpl in Hi. assert (i = 0) as -> by lia. done.
  - destruct i as [|i].
    + change (substring 0 0 (String c s)) with EmptyString.
      rewrite Nat.sub_0_r. apply substring_full.
    + simpl in *. rewrite append_cons. f_equal. apply IH. lia.
Qed.

Lemma substring_lower (s : string) (i k : nat) :
  substring i k (lower s) = lower (substring i k s).
Proof.
  revert i k. induction s as [|c s IH]; intros i k.
  - by destruct i, k.
  - destruct i as [|i]; [destruct k as [|k]|]; simpl; [done| |apply IH].
    f_equal. apply IH.
Qed.

(** [s.endswith(suffix)] holds exactly when [s] is something followed by
    [suffix]. *)
Lemma endswith_app (a suffix : string) : endswith (a +:+ suffix) suffix = true.
Proof.
  unfold endswith. rewrite length_app.
  rewrite bool_decide_eq_true_2 by lia.
  replace (String.length a + String.length suffix - String.length suffix)
    with (String.length a) by lia.
  rewrite substring_app_r. by rewrite bool_decide_eq_true_2.
Qed.

Lemma endswith_inv (s suffix : string) :
  endswith s suffix = true →
  s = substring 0 (String.length s - String.length suffix) s +:+ suffix.
Proof.
  unfold endswith. intros [Hle Hsub]%andb_true_iff.
  apply bool_decide_eq_true_1 in Hle. apply bool_decide_eq_true_1 in Hsub.
  pose proof (substring_split s (String.length s - String.length suffix))
    as H.
  replace (String.length s - (String.length s - String.length suffix))
    with (String.length suffix) in H by lia.
  rewrite Hsub in H. symmetry. apply H. lia.
Qed.

(** X15.  The file name [ExportMax.execute] computes at lines 317-322
    always ends in .max, in some case of the letters; a path that ends in
    .max already is left as it is, so the step is idempotent. *)
Theorem ensure_max_extension_ends_max (filepath : string) :
  endswith (lower (ensure_max_extension filepath)) ".max" = true
  ∧ (endswith (lower filepath) ".max" = true →
     ensure_max_extension filepath = filepath)
  ∧ ensure_max_extension (ensure_max_extension filepath)
    = ensure_max_extension filepath.
Proof.
  assert (endswith (lower (ensure_max_extension filepath)) ".max" = true)
    as Hends.
  { unfold ensure_max_extension.
    destruct (endswith (lower filepath) ".max") eqn:He; [done|].
    cbn [negb]. cbv zeta. rewrite lower_app. apply endswith_app. }
  split; [done|]. split.
  - intros He. unfold ensure_max_extension. by rewrite He.
  - unfold ensure_max_extension at 1. by rewrite Hends.
Qed.

(** X16.  The step meant to remove a doubled extension (lines 326-328)
    removes nothing: it cuts the last four characters and appends .max, so
    the path keeps its length and is the same up to the case of its
    letters, and a path that ends in .max.max still does. *)
Theorem strip_double_extension_keeps_it (final_filepath : string) :
  lower (strip_double_extension final_filepath) = lower final_filepath
  ∧ String.length (strip_double_extension final_filepath)
    = String.length final_filepath
  ∧ endswith (lower (strip_double_extension final_filepath)) ".max.max"
    = endswith (lower final_filepath) ".max.max".
Proof.
  assert (lower (strip_double_extension final_filepath)
          = lower final_filepath) as Hlow.
  { unfold strip_double_extension.
    destruct (endswith (lower final_filepath) ".max.max") eqn:He; [|done].
    cbv zeta. rewrite lower_app, <- substring_lower.
    apply endswith_inv in He. rewrite length_lower in He.
    set (n := String.length final_filepath) in *.
    set (t := lower final_filepath) in *.
    change ".max.max" with (".max" +:+ ".max") in He.
    rewrite <- string_app_assoc in He.
    change (String.length (".max" +:+ ".max")) with 8 in He.
    assert (String.length t = n) as Hn by apply length_lower.
    remember (substring 0 (n - 8) t +:+ ".max") as a eqn:Ha.
    assert (n - 4 = String.length a) as ->.
    { rewrite <- Hn, He, length_app. simpl. lia. }
    rewrite He at 1. rewrite substring_app_l. by symmetry. }
  split; [done|]. split.
  - rewrite <- (length_lower (strip_double_extension _)), Hlow.
    apply length_lower.
  - by rewrite Hlow.
Qed.

(* ===================================================================== *)
(** * The filters, called as the import does not call them *)
(* ===================================================================== *)










(* ===================================================================== *)
(** * [register] and [unregister], one after the other *)
(* ===================================================================== *)

Lemma menu_remove_app (f : string) (menu : list string) :
  f ∉ menu → menu_remove f (menu ++ [f]) = menu.
Proof.
  induction menu as [|g menu IH]; intros Hf; simpl.
  - by rewrite bool_decide_eq_true_2.
  - rewrite bool_decide_eq_false_2 by (intros ->; set_solver).
    f_equal. apply IH. set_solver.
Qed.

(** What a successful [register] leaves. *)
Lemma register_ok r r1 :
  register r = inr r1 →
  classes r ## list_to_set addon_classes
  ∧ classes r1 = list_to_set addon_classes ∪ classes r
  ∧ file_export_menu r1 = file_export_menu r ++ ["menu_func_export"]
  ∧ file_import_menu r1 = file_import_menu r ++ ["menu_func_import"].
Proof.
  unfold register, register_class, and_then, addon_classes.
  repeat (case_bool_decide; [discriminate|]); simpl in *.
  intros [= <-]. simpl. split; [|split; [|done]].
  - set_solver.
  - set_solver.
Qed.

Lemma register_run r :
  classes r ## list_to_set addon_classes →
  ∃ r1, register r = inr r1.
Proof.
  intros Hdisj. unfold register, register_class, and_then.
  assert (∀ c, c ∈ addon_classes → c ∉ classes r) as Hnot
    by (intros c Hc Hin; apply (Hdisj c Hin); set_solver).
  unfold addon_classes in Hnot.
  repeat (rewrite bool_decide_eq_false_2;
          [|simpl; rewrite ?elem_of_union, ?elem_of_singleton;
            intros H; decompose [or] H; try discriminate;
            match goal with
            | H' : _ ∈ classes r |- _ => revert H'; apply Hnot; set_solver
            end]).
  eauto.
Qed.

(** X19.  [unregister] undoes [register]: on a host where none of the
    seven classes is registered and the two draw functions are not in the
    file menus yet, [register] succeeds, [unregister] then succeeds too,
    and the registered classes and both menus are back as they were,
    whatever else the host had registered. *)
Theorem register_unregister_round_trip (r : Registry) :
  classes r ## list_to_set addon_classes →
  "menu_func_export" ∉ file_export_menu r →
  "menu_func_import" ∉ file_import_menu r →
  ∃ r1 r2,
    register r = inr r1
    ∧ unregister r1 = inr r2
    ∧ classes r2 = classes r
    ∧ file_export_menu r2 = file_export_menu r
    ∧ file_import_menu r2 = file_import_menu r.
Proof.
  intros Hdisj Hexp Himp.
  destruct (register_run r Hdisj) as [r1 Hreg].
  destruct (register_ok r r1 Hreg) as (_ & Hc1 & He1 & Hi1).
  exists r1. unfold unregister, unregister_class, and_then.
  unfold addon_classes in *. simpl in Hc1, Hdisj.
  repeat (rewrite bool_decide_eq_true_2;
          [|simpl; rewrite Hc1; set_solver]).
  eexists. split; [done|]. split; [reflexivity|]. simpl.
  rewrite He1, Hi1, !menu_remove_app by done.
  split; [|done]. rewrite Hc1. set_solver.
Qed.

Lemma register_round_trip_witness :
  ∃ r1 r2,
    register fresh_registry = inr r1
    ∧ unregister r1 = inr r2
    ∧ classes r2 = classes fresh_registry
    ∧ file_export_menu r2 = file_export_menu fresh_registry
    ∧ file_import_menu r2 = file_import_menu fresh_registry.
Proof.
  apply (register_unregister_round_trip fresh_registry).
  - apply (bool_decide_eq_true_1 _). vm_compute. reflexivity.
  - apply (bool_decide_eq_true_1 _). vm_compute. reflexivity.
  - apply (bool_decide_eq_true_1 _). vm_compute. reflexivity.
Defined.



